(** * mcp-deploy: the document-conversion servers under [src/fastMcp]

    A shallow embedding of the four MCP servers of the repository

    - [improved_mcp_server.py]  (module [Improved]),
    - [server.py]               (module [Server]),
    - [mcp_test.py]             (module [McpTest]),
    - [git_server.py]           (module [GitServer]),

    over a small model of the Python runtime they run on: strings and
    paths ([Py], [OsPath], [Pathlib], after CPython 3.11 on POSIX),
    exceptions and a state-and-exception monad ([Run]), and a file system
    with a log of the effects performed ([Os]).  The conversion backends,
    the base64 decoder and the UUID source are collaborators from outside
    the repository and are taken as a [Platform]; [Demo] holds one such
    platform and a few worlds to run the servers on.

    Strings are sequences of bytes (UTF-8), times are whole seconds, and
    calls to the logger are left out.  Each server function is a
    computation over a [World]; the tool decorators and the transport
    that exposes the functions are not part of the model. *)

From Stdlib Require Import ZArith Ascii String List Lia.
From stdpp Require Import base gmap strings list pretty sorting.

Local Open Scope Z_scope.

(** ** Python strings *)

Module Py.

(** [len(s)] *)
Definition len (s : string) : Z := Z.of_nat (String.length s).

(** [s.startswith(pre)] *)
Fixpoint startswith (pre s : string) : bool :=
  match pre, s with
  | EmptyString, _ => true
  | String _ _, EmptyString => false
  | String a p, String b t => if Ascii.eqb a b then startswith p t else false
  end.

(** [s.endswith(c)] for a one-character [c] *)
Fixpoint endswith_char (c : ascii) (s : string) : bool :=
  match s with
  | EmptyString => false
  | String a EmptyString => Ascii.eqb a c
  | String _ t => endswith_char c t
  end.

(** [s.split(sep)] for a one-character separator *)
Fixpoint split (sep : ascii) (s : string) : list string :=
  match s with
  | EmptyString => [EmptyString]
  | String c t =>
      if Ascii.eqb c sep then EmptyString :: split sep t
      else match split sep t with
           | [] => [String c EmptyString]
           | w :: ws => String c w :: ws
           end
  end.

(** [sep.join(l)] *)
Fixpoint join (sep : string) (l : list string) : string :=
  match l with
  | [] => ""
  | [x] => x
  | x :: rest => x +:+ sep +:+ join sep rest
  end.

(** [s.rfind(c)] for a one-character [c]: the last index, or [-1] *)
Fixpoint rfind (c : ascii) (s : string) : Z :=
  match s with
  | EmptyString => -1
  | String a t =>
      let r := rfind c t in
      if 0 <=? r then r + 1 else if Ascii.eqb a c then 0 else -1
  end.

(** [s[:n]] and [s[n:]] for [0 <= n] *)
Fixpoint take (n : nat) (s : string) : string :=
  match n, s with
  | O, _ => ""
  | S _, EmptyString => ""
  | S k, String a t => String a (take k t)
  end.

Fixpoint drop (n : nat) (s : string) : string :=
  match n, s with
  | O, _ => s
  | S _, EmptyString => ""
  | S k, String _ t => drop k t
  end.

Definition slice_to (i : Z) (s : string) : string := take (Z.to_nat i) s.
Definition slice_from (i : Z) (s : string) : string := drop (Z.to_nat i) s.

(** [s.lstrip(c)] for a one-character [c] *)
Fixpoint lstrip (c : ascii) (s : string) : string :=
  match s with
  | EmptyString => ""
  | String a t => if Ascii.eqb a c then lstrip c t else s
  end.

(** [s.lower()].  Strings are kept as their UTF-8 bytes and only the
    ASCII capitals are mapped.  The extensions the servers compare
    against ([.pdf], [.docx], [.doc], [.txt], [.html], [.xlsx],
    [.pptx]) contain neither [k] nor [i], the only ASCII letters that a
    non-ASCII character lowercases to, so membership tests on the
    result agree with Python's. *)
Definition lower_char (a : ascii) : ascii :=
  let n := N_of_ascii a in
  if ((65 <=? n) && (n <=? 90))%N then ascii_of_N (n + 32) else a.

Fixpoint lower (s : string) : string :=
  match s with
  | EmptyString => ""
  | String a t => String (lower_char a) (lower t)
  end.

(** [needle in hay] *)
Fixpoint contains (needle hay : string) : bool :=
  startswith needle hay ||
  match hay with
  | EmptyString => false
  | String _ t => contains needle t
  end.

(** [c not in s] for a one-character [c] *)
Fixpoint lacks (c : ascii) (s : string) : bool :=
  match s with
  | EmptyString => true
  | String a t => negb (Ascii.eqb a c) && lacks c t
  end.

(** [x in l] for a collection of strings *)
Definition mem (x : string) (l : list string) : bool :=
  existsb (String.eqb x) l.

(** [sorted(l)] on strings: ascending, compared character by character *)
Definition sorted (l : list string) : list string := merge_sort String.le l.

(** truthiness of a string: [bool(s)] *)
Definition truthy (s : string) : bool :=
  match s with EmptyString => false | _ => true end.

End Py.

(** ** [os.path] (posixpath): the pure functions on path strings *)

Module OsPath.
Import Py.

(** [os.path.basename(p)]: what follows the last slash *)
Definition basename (p : string) : string :=
  slice_from (rfind "/" p + 1) p.

(** [os.path.isabs(p)] *)
Definition isabs (p : string) : bool := startswith "/" p.

(** [os.path.join(a, b)] *)
Definition join (a b : string) : string :=
  if startswith "/" b then b
  else if negb (truthy a) || endswith_char "/" a then a +:+ b
  else a +:+ "/" +:+ b.

(** [os.path.splitext(p)]: the extension starts at the last dot of the
    last component, unless only dots precede it there *)
Fixpoint all_dots (s : string) : bool :=
  match s with
  | EmptyString => true
  | String a t => Ascii.eqb a "." && all_dots t
  end.

Definition splitext (p : string) : string * string :=
  let sepIndex := rfind "/" p in
  let dotIndex := rfind "." p in
  if (sepIndex <? dotIndex)
     && negb (all_dots (slice_to (dotIndex - (sepIndex + 1))
                                 (slice_from (sepIndex + 1) p)))
  then (slice_to dotIndex p, slice_from dotIndex p)
  else (p, "").

(** [os.path.normpath(p)] *)
Definition normpath_step (rooted : bool) (new_comps : list string)
    (comp : string) : list string :=
  if String.eqb comp "" || String.eqb comp "." then new_comps
  else if negb (String.eqb comp "..")
          || (negb rooted && bool_decide (new_comps = []))
          || bool_decide (last new_comps = Some "..")
  then new_comps ++ [comp]
  else removelast new_comps.

Definition normpath (path : string) : string :=
  if String.eqb path "" then "."
  else
    let initial_slashes : string :=
      if startswith "/" path then
        if startswith "//" path && negb (startswith "///" path)
        then "//" else "/"
      else "" in
    let comps :=
      fold_left (normpath_step (truthy initial_slashes))
                (split "/" path) [] in
    let path' := initial_slashes +:+ Py.join "/" comps in
    if truthy path' then path' else ".".

(** [os.path.abspath(p)], with the process's working directory [cwd] *)
Definition abspath (cwd p : string) : string :=
  normpath (if isabs p then p else join cwd p).

End OsPath.

(** ** [pathlib]: pure POSIX paths *)

Module Pathlib.
Import Py.

(** A parsed path: the root ([""], ["/"] or ["//"]) and the components
    after it, none of which is empty or a single dot. *)
Record PurePath := { root : string; parts : list string }.

Definition splitroot (part : string) : string * string :=
  if startswith "/" part then
    let stripped := lstrip "/" part in
    if len part - len stripped =? 2 then ("//", stripped) else ("/", stripped)
  else ("", part).

Definition keep_part (x : string) : bool :=
  truthy x && negb (String.eqb x ".").

(** [Path(s)] *)
Definition Path (s : string) : PurePath :=
  let '(r, rel) := splitroot s in
  {| root := r; parts := filter keep_part (split "/" rel) |}.

(** [str(p)] *)
Definition str (p : PurePath) : string :=
  if truthy (root p) then root p +:+ Py.join "/" (parts p)
  else match parts p with
       | [] => "."
       | _ => Py.join "/" (parts p)
       end.

(** What every value of the class satisfies: one of the three roots, and
    components free of slashes, none empty or a single dot *)
Definition wf (p : PurePath) : Prop :=
  (root p = "" \/ root p = "/" \/ root p = "//")
  /\ Forall (fun x => lacks "/" x = true /\ keep_part x = true) (parts p).

(** [p / s] *)
Definition div (p : PurePath) (s : string) : PurePath :=
  let q := Path s in
  if truthy (root q) then q
  else {| root := root p; parts := parts p ++ parts q |}.

(** [p.name] *)
Definition name (p : PurePath) : string :=
  match last (parts p) with
  | Some n => n
  | None => ""
  end.

(** [p.suffix]: from the last dot of the name, when that dot is neither
    its first nor its last character *)
Definition suffix (p : PurePath) : string :=
  let nm := name p in
  let i := rfind "." nm in
  if (0 <? i) && (i <? len nm - 1) then slice_from i nm else "".

(** [p.stem] *)
Definition stem (p : PurePath) : string :=
  let nm := name p in
  let i := rfind "." nm in
  if (0 <? i) && (i <? len nm - 1) then slice_to i nm else nm.

(** [p.with_suffix(sfx)] for a well-formed [sfx] such as [".md"];
    [None] stands for the [ValueError] raised on an empty name *)
Definition with_suffix (sfx : string) (p : PurePath) : option PurePath :=
  let nm := name p in
  if negb (truthy nm) then None
  else
    let old_suffix := suffix p in
    let nm' :=
      if negb (truthy old_suffix) then nm +:+ sfx
      else slice_to (len nm - len old_suffix) nm +:+ sfx in
    Some {| root := root p; parts := removelast (parts p) ++ [nm'] |}.

End Pathlib.

(** ** Exceptions, and computations that thread a state and may raise *)

Module Run.

(** A raised exception: its class and [str(e)]. *)
Record exn := Exn { exn_class : string; exn_str : string }.

Inductive outcome (A : Type) : Type :=
| Ret (a : A)
| Raise (e : exn).
Arguments Ret {A} a.
Arguments Raise {A} e.

(** A computation over a state [S]: it ends by returning or by raising,
    and in both cases leaves a state behind. *)
Definition M (S A : Type) : Type := S -> outcome A * S.

Definition ret {S A} (a : A) : M S A := fun s => (Ret a, s).

Definition raise {S A} (e : exn) : M S A := fun s => (Raise e, s).

Definition bind {S A B} (m : M S A) (k : A -> M S B) : M S B :=
  fun s =>
    match m s with
    | (Ret a, s') => k a s'
    | (Raise e, s') => (Raise e, s')
    end.

(** An external call that returns or raises without touching the state *)
Definition call {S A} (o : outcome A) : M S A := fun s => (o, s).

Definition gets {S A} (f : S -> A) : M S A := fun s => (Ret (f s), s).

Definition modify {S} (f : S -> S) : M S unit := fun s => (Ret tt, f s).

(** [try: body / except Exception as e: handler e] *)
Definition try_except {S A} (body : M S A) (handler : exn -> M S A) : M S A :=
  fun s =>
    match body s with
    | (Ret a, s') => (Ret a, s')
    | (Raise e, s') => handler e s'
    end.

(** [try: body / finally: fin]: [fin] runs on both ways out of [body];
    the outcome of [body] stands unless [fin] itself raises *)
Definition try_finally {S A} (body : M S A) (fin : M S unit) : M S A :=
  fun s =>
    match body s with
    | (r, s') =>
        match fin s' with
        | (Ret _, s'') => (r, s'')
        | (Raise e, s'') => (Raise e, s'')
        end
    end.

(** A function body with one local variable of type [L], initialised to
    [init]; inside, the state is the local paired with the outer state *)
Definition with_local {S L A} (init : L) (body : M (L * S) A) : M S A :=
  fun s =>
    match body (init, s) with
    | (r, (_, s')) => (r, s')
    end.

Definition outer {S L A} (m : M S A) : M (L * S) A :=
  fun ls =>
    match m (snd ls) with
    | (r, s') => (r, (fst ls, s'))
    end.

Definition get_local {S L} : M (L * S) L := fun ls => (Ret (fst ls), ls).

Definition set_local {S L} (l : L) : M (L * S) unit :=
  fun ls => (Ret tt, (l, snd ls)).

(** [for x in xs: body x], with the loop's variables as an accumulator *)
Fixpoint for_each {S A B} (xs : list A) (acc : B) (body : B -> A -> M S B)
    : M S B :=
  match xs with
  | [] => ret acc
  | x :: rest => bind (body acc x) (fun acc' => for_each rest acc' body)
  end.

Declare Scope run_scope.
Delimit Scope run_scope with run.
Notation "x <- m ;; k" := (bind m (fun x => k))
  (at level 100, m at next level, right associativity) : run_scope.
Notation "m ;;; k" := (bind m (fun _ => k))
  (at level 100, right associativity) : run_scope.

End Run.

(** ** The operating system: files, directories, and a log of effects *)

Module Os.
Import Py Run.
Local Open Scope run_scope.

(** The two conversion libraries, with the option each is built with *)
Inductive Backend : Type :=
| MarkItDown (enable_plugins : bool)
| DocumentConverter (do_ocr : bool).

(** What a run did to its surroundings, oldest first *)
Inductive Event : Type :=
| EvWrite (path : string)
| EvRemove (path : string)
| EvMkdir (path : string)
| EvConvert (b : Backend) (path : string).

Record File := { data : list Byte.byte; ctime : Z; readable : bool }.

(** Regular files and directories are known by the path string they are
    reached by.  Opening a path for writing creates or truncates the
    file there and succeeds; removing succeeds on a regular file. *)
Record World := {
  files : gmap string File;
  dirs : gset string;
  cwd : string;
  clock : Z;
  uuid_count : nat;
  log : list Event
}.

(** The collaborators outside the repository *)
Record Platform := {
  (** [base64.b64decode(s)] *)
  b64decode : string -> outcome (list Byte.byte);
  (** [converter.convert(path)] on the bytes found at [path], rendered
      to Markdown text *)
  backend_convert : Backend -> string -> list Byte.byte -> outcome string;
  (** the hex form of the [n]-th [uuid.uuid4()] of the process *)
  uuid4_hex : nat -> string;
  (** [tempfile.mkdtemp(prefix="mcp_converter_")] at import time *)
  mkdtemp : string;
  (** the order in which the process iterates over a [set] literal *)
  set_iter : list string -> list string
}.

Definition with_files (f : gmap string File -> gmap string File) (w : World) : World :=
  {| files := f (files w); dirs := dirs w; cwd := cwd w; clock := clock w;
     uuid_count := uuid_count w; log := log w |}.

Definition with_dirs (f : gset string -> gset string) (w : World) : World :=
  {| files := files w; dirs := f (dirs w); cwd := cwd w; clock := clock w;
     uuid_count := uuid_count w; log := log w |}.

Definition emit (ev : Event) (w : World) : World :=
  {| files := files w; dirs := dirs w; cwd := cwd w; clock := clock w;
     uuid_count := uuid_count w; log := log w ++ [ev] |}.

Definition next_uuid (w : World) : World :=
  {| files := files w; dirs := dirs w; cwd := cwd w; clock := clock w;
     uuid_count := S (uuid_count w); log := log w |}.

Definition FileNotFoundError (p : string) : exn :=
  Exn "FileNotFoundError" ("[Errno 2] No such file or directory: '" +:+ p +:+ "'").
Definition IsADirectoryError (p : string) : exn :=
  Exn "IsADirectoryError" ("[Errno 21] Is a directory: '" +:+ p +:+ "'").
Definition FileExistsError (p : string) : exn :=
  Exn "FileExistsError" ("[Errno 17] File exists: '" +:+ p +:+ "'").

(** [os.path.isfile], [os.path.isdir], [os.path.exists] *)
Definition isfile (p : string) : M World bool :=
  gets (fun w => bool_decide (is_Some (files w !! p))).
Definition isdir (p : string) : M World bool :=
  gets (fun w => bool_decide (p ∈ dirs w)).
Definition present (w : World) (p : string) : bool :=
  bool_decide (is_Some (files w !! p)) || bool_decide (p ∈ dirs w).
Definition exists_ (p : string) : M World bool :=
  gets (fun w => present w p).

(** [os.access(p, os.R_OK)] *)
Definition access_R_OK (p : string) : M World bool :=
  gets (fun w => match files w !! p with
                 | Some f => readable f
                 | None => bool_decide (p ∈ dirs w)
                 end).

(** [os.path.exists(p) and os.access(p, os.R_OK)] as a test on the world *)
Definition accessible (w : World) (p : string) : bool :=
  present w p
  && match files w !! p with
     | Some f => readable f
     | None => bool_decide (p ∈ dirs w)
     end.

(** [os.path.getsize(p)]; a directory reports the size of its own
    entry, taken as 4096 *)
Definition getsize (p : string) : M World Z :=
  fun w => match files w !! p with
           | Some f => (Ret (Z.of_nat (length (data f))), w)
           | None => if bool_decide (p ∈ dirs w) then (Ret 4096, w)
                     else (Raise (FileNotFoundError p), w)
           end.

(** [os.path.getctime(p)] *)
Definition getctime (p : string) : M World Z :=
  fun w => match files w !! p with
           | Some f => (Ret (ctime f), w)
           | None => (Raise (FileNotFoundError p), w)
           end.

(** [with open(p, "wb") as f: f.write(content)] *)
Definition write_bytes (p : string) (content : list Byte.byte) : M World unit :=
  fun w =>
    (Ret tt,
     emit (EvWrite p)
       (with_files
          <[p := {| data := content; ctime := clock w; readable := true |}]> w)).

(** [with open(p, "w", encoding="utf-8") as f: f.write(text)] *)
Definition write_text (p : string) (text : string) : M World unit :=
  write_bytes p (String.list_byte_of_string text).

(** [os.remove(p)] / [Path.unlink()] *)
Definition remove (p : string) : M World unit :=
  fun w =>
    match files w !! p with
    | Some _ => (Ret tt, emit (EvRemove p) (with_files (delete p) w))
    | None => if bool_decide (p ∈ dirs w) then (Raise (IsADirectoryError p), w)
              else (Raise (FileNotFoundError p), w)
    end.

(** [os.makedirs(p, exist_ok=True)] / [Path.mkdir(parents=True,
    exist_ok=True)]; the ancestors of [p] are not tracked, and the call
    is taken to be permitted: it raises only on a regular file at [p] *)
Definition makedirs (p : string) : M World unit :=
  fun w =>
    if bool_decide (is_Some (files w !! p)) then (Raise (FileExistsError p), w)
    else if bool_decide (p ∈ dirs w) then (Ret tt, w)
    else (Ret tt, emit (EvMkdir p) (with_dirs (union {[p]}) w)).

(** The entry name of [k] inside directory [d], when [k] lies directly
    in [d] *)
Definition child_name (d k : string) : option string :=
  let pre := if endswith_char "/" d then d else d +:+ "/" in
  if startswith pre k then
    let n := drop (String.length pre) k in
    if truthy n && negb (contains "/" n) then Some n else None
  else None.

(** [os.listdir(d)], in the order the file system hands the entries
    out; the directory is taken to be listable *)
Definition listing (w : World) (d : string) : list string :=
  omap (child_name d) (map fst (map_to_list (files w)) ++ elements (dirs w)).
Definition listdir (d : string) : M World (list string) :=
  gets (fun w => listing w d).

(** The paths [os.path.join(root, file)] that the loops over
    [os.walk(top)] visit: every regular file below [top] *)
Definition walk_files (top : string) : M World (list string) :=
  gets (fun w =>
    let pre := if endswith_char "/" top then top else top +:+ "/" in
    filter (fun k => startswith pre k = true) (map fst (map_to_list (files w)))).

(** The shape of a [uuid.uuid4().hex]: thirty-two lower-case hex digits *)
Definition is_hex_digit (a : ascii) : bool :=
  let n := N_of_ascii a in
  ((48 <=? n) && (n <=? 57))%N || ((97 <=? n) && (n <=? 102))%N.

Fixpoint all_hex (s : string) : bool :=
  match s with
  | EmptyString => true
  | String a t => is_hex_digit a && all_hex t
  end.

Definition is_uuid_hex (s : string) : bool :=
  (String.length s =? 32)%nat && all_hex s.

(** [uuid.uuid4().hex] *)
Definition uuid4 (P : Platform) : M World string :=
  fun w => (Ret (uuid4_hex P (uuid_count w)), next_uuid w).

(** [backend.convert(p)]: the library opens the file at [p] and renders
    it; it raises when there is no such file or on its own failures *)
Definition convert (P : Platform) (b : Backend) (p : string) : M World string :=
  fun w =>
    let w' := emit (EvConvert b p) w in
    match files w !! p with
    | Some f => (backend_convert P b p (data f), w')
    | None => (Raise (FileNotFoundError p), w')
    end.

(** Whether [p] is [top] itself or lies below it *)
Definition below (top p : string) : bool :=
  String.eqb p top
  || startswith (if endswith_char "/" top then top else top +:+ "/") p.

Definition NotADirectoryError (p : string) : exn :=
  Exn "NotADirectoryError" ("[Errno 20] Not a directory: '" +:+ p +:+ "'").

(** [shutil.rmtree(top)]: on a directory, every file and directory at or
    below it goes; the log gets one removal per file *)
Definition rmtree (top : string) : M World unit :=
  fun w =>
    if bool_decide (top ∈ dirs w) then
      (Ret tt,
       {| files := filter (fun kv => below top (fst kv) = false) (files w);
          dirs := filter (fun d => below top d = false) (dirs w);
          cwd := cwd w; clock := clock w; uuid_count := uuid_count w;
          log := log w
                   ++ map EvRemove
                        (filter (fun k => below top k = true)
                           (map fst (map_to_list (files w)))) |})
    else if bool_decide (is_Some (files w !! top)) then
      (Raise (NotADirectoryError top), w)
    else (Raise (FileNotFoundError top), w).

End Os.

Import Py Run Os.
Local Open Scope run_scope.

(** A line break inside a message *)
Definition NL : string := String "010"%char "".

(** ** [improved_mcp_server.py] *)

Module Improved.
Section Improved.

Variable P : Platform.

(** The status marks, with the bytes the source file holds *)
Definition CROSS : string := "âŒ".
Definition CHECK : string := "âœ…".

Definition ALLOWED_EXTENSIONS : list string :=
  [".pdf"; ".docx"; ".doc"; ".txt"; ".html"; ".xlsx"; ".pptx"].

Definition MAX_FILE_SIZE : Z := 50 * 1024 * 1024.

Definition TEMP_BASE : string := mkdtemp P.
Definition UPLOAD_DIR : string := OsPath.join TEMP_BASE "uploads".
Definition OUTPUT_DIR : string := OsPath.join TEMP_BASE "outputs".

(** [validate_file_content(filename, content_size)].  Nothing in its
    [try] block raises on a string and an integer, so the function is
    the block itself. *)
Definition validate_file_content (filename : string) (content_size : Z)
    : bool * string :=
  let path := Pathlib.Path filename in
  if negb (mem (lower (Pathlib.suffix path)) ALLOWED_EXTENSIONS) then
    (false, "File type not supported. Allowed: "
              +:+ Py.join ", " (set_iter P ALLOWED_EXTENSIONS))
  else if MAX_FILE_SIZE <? content_size then
    (false, "File too large. Maximum size: "
              +:+ pretty (MAX_FILE_SIZE / (1024 * 1024)) +:+ "MB")
  else (true, "Valid").

(** The extension test of [validate_file_content], on its own *)
Definition accepted (filename : string) : bool :=
  mem (lower (Pathlib.suffix (Pathlib.Path filename))) ALLOWED_EXTENSIONS.

(** The path [save_uploaded_file] stages [filename] under when it is
    called in world [w] *)
Definition staged_path (w : World) (filename : string) : string :=
  OsPath.join UPLOAD_DIR
    (take 8 (uuid4_hex P (uuid_count w)) +:+ "_"
       +:+ Pathlib.name (Pathlib.Path filename)).

(** [save_uploaded_file(filename, content)] *)
Definition save_uploaded_file (filename : string) (content : list Byte.byte)
    : M World string :=
  hex <- uuid4 P ;;
  let file_id := take 8 hex in
  let safe_filename := file_id +:+ "_" +:+ Pathlib.name (Pathlib.Path filename) in
  let file_path := OsPath.join UPLOAD_DIR safe_filename in
  write_bytes file_path content ;;;
  ret file_path.

(** The [finally] block of [convert_file_from_base64], reading the
    local [temp_file] *)
Definition cleanup_temp_file : M (option string * World) unit :=
  temp_file <- get_local ;;
  match temp_file with
  | Some p =>
      if truthy p then
        there <- outer (exists_ p) ;;
        if there : bool then try_except (outer (remove p)) (fun _ => ret tt)
        else ret tt
      else ret tt
  | None => ret tt
  end.

(** [convert_file_from_base64(filename, file_content_base64)] *)
Definition convert_file_from_base64 (filename file_content_base64 : string)
    : M World string :=
  with_local (None : option string)
    (try_finally
       (try_except
          (decoded <- try_except
                        (c <- call (b64decode P file_content_base64) ;; ret (inr c))
                        (fun e => ret (inl (CROSS +:+ " Invalid base64 content: "
                                              +:+ exn_str e))) ;;
           match decoded with
           | inl early => ret early
           | inr file_content =>
               let '(is_valid, message) :=
                 validate_file_content filename (Z.of_nat (length file_content)) in
               if negb is_valid then ret (CROSS +:+ " Error: " +:+ message)
               else
                 temp_file <- outer (save_uploaded_file filename file_content) ;;
                 set_local (Some temp_file) ;;;
                 result <- outer (convert P (MarkItDown false) temp_file) ;;
                 ret (CHECK +:+ " Conversion successful!" +:+ NL +:+ NL
                        +:+ "--- MARKDOWN CONTENT ---" +:+ NL +:+ result)
           end)
          (fun e => ret (CROSS +:+ " Conversion failed: " +:+ exn_str e)))
       cleanup_temp_file).

(** The allow-list test of [convert_file_from_path], on its own *)
Definition in_allowed_roots (w : World) (file_path : string) : bool :=
  startswith "/tmp/" (OsPath.abspath (cwd w) file_path)
  || startswith "/shared/" (OsPath.abspath (cwd w) file_path).

(** [if output_name:] for an [Optional[str]] *)
Definition named (output_name : option string) : bool :=
  match output_name with
  | Some n => truthy n
  | None => false
  end.

(** [convert_file_from_path(file_path, output_name)] *)
Definition convert_file_from_path (file_path : string) (output_name : option string)
    : M World string :=
  try_except
    (here <- gets cwd ;;
     let abs_path := OsPath.abspath here file_path in
     if negb (startswith "/tmp/" abs_path || startswith "/shared/" abs_path) then
       ret (CROSS +:+ " Access denied: File must be in /tmp/ or /shared/ directory")
     else
       there <- exists_ file_path ;;
       blocked <- (if negb there then ret true
                   else ok <- access_R_OK file_path ;; ret (negb ok)) ;;
       if blocked : bool then
         ret (CROSS +:+ " File not accessible: " +:+ file_path)
       else
         file_size <- getsize file_path ;;
         let filename := OsPath.basename file_path in
         let '(is_valid, message) := validate_file_content filename file_size in
         if negb is_valid then ret (CROSS +:+ " Error: " +:+ message)
         else
           result <- convert P (MarkItDown false) file_path ;;
           output_filename <-
             (if named output_name then
                hex <- uuid4 P ;;
                ret (default "" output_name +:+ "_" +:+ take 8 hex +:+ ".md")
              else
                let input_name := Pathlib.stem (Pathlib.Path file_path) in
                hex <- uuid4 P ;;
                ret (input_name +:+ "_" +:+ take 8 hex +:+ ".md")) ;;
           let output_path := OsPath.join OUTPUT_DIR output_filename in
           write_text output_path result ;;;
           ret (CHECK +:+ " Conversion successful! Output saved to: " +:+ output_path))
    (fun e => ret (CROSS +:+ " Conversion failed: " +:+ exn_str e)).

(** [os.time.time()]: the module [os] has no attribute [time], so the
    attribute lookup raises before any clock is read *)
Definition os_time_time : M World Z :=
  raise (Exn "AttributeError" "module 'os' has no attribute 'time'").

(** [cleanup_old_files()] *)
Definition cleanup_old_files : M World string :=
  try_except
    (paths <- walk_files OUTPUT_DIR ;;
     count <- for_each paths 0 (fun count file_path =>
                created <- getctime file_path ;;
                now <- os_time_time ;;
                if created <? now - 3600 then
                  remove file_path ;;; ret (count + 1)
                else ret count) ;;
     ret (CHECK +:+ " Cleaned up " +:+ pretty (count : Z) +:+ " old files"))
    (fun e => ret (CROSS +:+ " Cleanup failed: " +:+ exn_str e)).

(** The path [convert_file_from_path] writes its output to when it is
    called in world [w] *)
Definition output_path (w : World) (file_path : string)
    (output_name : option string) : string :=
  OsPath.join OUTPUT_DIR
    ((if named output_name then default "" output_name
      else Pathlib.stem (Pathlib.Path file_path))
       +:+ "_" +:+ take 8 (uuid4_hex P (uuid_count w)) +:+ ".md").

(** [list_supported_formats()] *)
Definition list_supported_formats : string :=
  "Supported formats: " +:+ Py.join ", " (sorted (set_iter P ALLOWED_EXTENSIONS)).

(** [cleanup_temp_files()] *)
Definition cleanup_temp_files : M World unit :=
  try_except
    (there <- exists_ TEMP_BASE ;;
     if there : bool then rmtree TEMP_BASE else ret tt)
    (fun _ => ret tt).

End Improved.
End Improved.

(** ** [server.py] *)

Module Server.
Section Server.

Variable P : Platform.

(** [convert_file_to_markdown(file_path)] *)
Definition convert_file_to_markdown (file_path : string) : M World string :=
  let input_path := Pathlib.Path file_path in
  there <- exists_ (Pathlib.str input_path) ;;
  if negb there then
    raise (Exn "FileNotFoundError" ("File not found: " +:+ file_path))
  else
    md_text <-
      (if String.eqb (lower (Pathlib.suffix input_path)) ".pdf" then
         convert P (DocumentConverter true) (Pathlib.str input_path)
       else
         convert P (MarkItDown false) (Pathlib.str input_path)) ;;
    match Pathlib.with_suffix ".md" input_path with
    | None =>
        raise (Exn "ValueError"
                 ("PosixPath('" +:+ Pathlib.str input_path +:+ "') has an empty name"))
    | Some output_path =>
        write_text (Pathlib.str output_path) md_text ;;;
        ret ("File converted successfully. Markdown saved to: "
               +:+ Pathlib.str output_path +:+ NL +:+ NL
               +:+ "Content:" +:+ NL +:+ md_text)
    end.

(** [convert_file_content_to_markdown(content, filename, output_dir)] *)
Definition convert_file_content_to_markdown
    (content filename output_dir : string) : M World string :=
  let output_path := Pathlib.Path output_dir in
  makedirs (Pathlib.str output_path) ;;;
  let input_path := Pathlib.div output_path filename in
  try_except
    (decoded_content <- call (b64decode P content) ;;
     write_bytes (Pathlib.str input_path) decoded_content)
    (fun _ => write_text (Pathlib.str input_path) content) ;;;
  result <- convert_file_to_markdown (Pathlib.str input_path) ;;
  try_except (remove (Pathlib.str input_path)) (fun _ => ret tt) ;;;
  ret result.

End Server.
End Server.

(** ** [mcp_test.py] *)

Module McpTest.
Section McpTest.

Variable P : Platform.

(** [convert_file_to_md(file_path, filename)], on the module's
    [MarkItDown(enable_plugins=True)] *)
Definition convert_file_to_md (file_path filename : string) : M World string :=
  try_except
    (convert P (MarkItDown true) file_path)
    (fun e => raise (Exn "Exception"
                       ("Conversion error for " +:+ filename +:+ ": " +:+ exn_str e))).

(** [convert_file_from_path(file_path)] *)
Definition convert_file_from_path (file_path : string) : M World string :=
  there <- exists_ file_path ;;
  if negb there then
    raise (Exn "FileNotFoundError" ("File not found: " +:+ file_path))
  else
    let filename := OsPath.basename file_path in
    markdown <- convert_file_to_md file_path filename ;;
    ret ("# Converted: " +:+ filename +:+ NL +:+ NL +:+ markdown).

(** The name [tempfile] settles on in a given world for a given suffix:
    the temporary directory, [tmp], eight random characters, the suffix *)
Variable mkstemp : World -> string -> string.

(** [tempfile.NamedTemporaryFile(delete=False, suffix=suffix)]: the file
    is created empty under its new name *)
Definition NamedTemporaryFile (suffix : string) : M World string :=
  name <- gets (fun w => mkstemp w suffix) ;;
  write_bytes name [] ;;;
  ret name.

(** The [finally] block shared by the three operations that stage a
    temporary file, reading the local [tmp_path] *)
Definition remove_tmp_path : M (option string * World) unit :=
  tmp_path <- get_local ;;
  match tmp_path with
  | Some p =>
      if truthy p then
        there <- outer (exists_ p) ;;
        if there : bool then try_except (outer (remove p)) (fun _ => ret tt)
        else ret tt
      else ret tt
  | None => ret tt
  end.

(** [with tempfile.NamedTemporaryFile(...) as tmp: tmp.write(data);
    tmp_path = tmp.name] *)
Definition stage_tmp (suffix : string) (content : list Byte.byte)
    : M (option string * World) string :=
  tmp <- outer (NamedTemporaryFile suffix) ;;
  outer (write_bytes tmp content) ;;;
  set_local (Some tmp) ;;;
  ret tmp.

(** [convert_file_from_base64(content, filename)] *)
Definition convert_file_from_base64 (content filename : string) : M World string :=
  with_local (None : option string)
    (try_finally
       (file_bytes <- call (b64decode P content) ;;
        let suffix := snd (OsPath.splitext filename) in
        tmp_path <- stage_tmp suffix file_bytes ;;
        markdown <- outer (convert_file_to_md tmp_path filename) ;;
        ret ("# Converted: " +:+ filename +:+ NL +:+ NL +:+ markdown))
       remove_tmp_path).

(** The JSON object the two HTTP endpoints answer with *)
Record Converted := { cv_filename : string; cv_markdown : string; cv_size : Z }.

(** [HTTPException(status_code=..., detail=...)] *)
Definition HTTPException (status_code : Z) (detail : string) : exn :=
  Exn "HTTPException" (pretty status_code +:+ ": " +:+ detail).


(** [convert_base64_file(content, filename)] *)
Definition convert_base64_file (content filename : string) : M World Converted :=
  with_local (None : option string)
    (try_finally
       (try_except
          (file_bytes <- call (b64decode P content) ;;
           let suffix := snd (OsPath.splitext filename) in
           tmp_path <- stage_tmp suffix file_bytes ;;
           markdown <- outer (convert_file_to_md tmp_path filename) ;;
           ret {| cv_filename := filename; cv_markdown := markdown;
                  cv_size := Z.of_nat (length file_bytes) |})
          (fun e => raise (HTTPException 500 ("Conversion failed: " +:+ exn_str e))))
       remove_tmp_path).

End McpTest.
End McpTest.

(** ** [git_server.py] *)

Module GitServer.
Section GitServer.

Variable P : Platform.

Definition CROSS : string := "❌".
Definition CHECK : string := "✅".
Definition WARNING : string := "⚠️".

(** The body of the loop of [convert_folder] for one directory entry;
    the accumulator is the pair of lists [processed], [skipped] *)
Definition convert_entry (folder_path output_dir : string)
    (acc : list string * list string) (filename : string)
    : M World (list string * list string) :=
  let '(processed, skipped) := acc in
  let file_path := OsPath.join folder_path filename in
  regular <- isfile file_path ;;
  if regular : bool then
    try_except
      (result <- convert P (MarkItDown false) file_path ;;
       let output_file :=
         OsPath.join output_dir (fst (OsPath.splitext filename) +:+ ".md") in
       write_text output_file result ;;;
       ret (processed ++ [filename], skipped))
      (fun e =>
         ret (processed, skipped ++ [filename +:+ " (" +:+ exn_str e +:+ ")"]))
  else ret (processed, skipped).

(** The closing lines of [convert_folder]: the summary built from the
    two lists *)
Definition summary (output_dir : string) (processed skipped : list string)
    : string :=
  let summary :=
    CHECK +:+ " Converted " +:+ pretty (length processed)
      +:+ " files. Markdown saved to: " +:+ output_dir +:+ NL in
  match skipped with
  | [] => summary
  | _ => summary +:+ WARNING +:+ " Skipped " +:+ pretty (length skipped)
           +:+ " files: " +:+ Py.join ", " skipped
  end.

(** [convert_folder(folder_path)] *)
Definition convert_folder (folder_path : string) : M World string :=
  here <- gets cwd ;;
  let folder_path := OsPath.abspath here folder_path in
  is_folder <- isdir folder_path ;;
  if negb is_folder then
    ret (CROSS +:+ " Path not found or not a folder: " +:+ folder_path)
  else
    let output_dir := OsPath.join folder_path "markdown_output" in
    makedirs output_dir ;;;
    entries <- listdir folder_path ;;
    lists <- for_each entries ([], []) (convert_entry folder_path output_dir) ;;
    let '(processed, skipped) := lists in
    ret (summary output_dir processed skipped).





End GitServer.
End GitServer.

(** ** A concrete platform and world, to run the servers on *)

Module Demo.

(** [binascii.a2b_base64] in its default, lenient mode: characters
    outside the alphabet are skipped, a completed quad followed by
    padding ends the input, and a dangling quad is an error *)
Definition b64_value (a : ascii) : option N :=
  let n := N_of_ascii a in
  if ((65 <=? n) && (n <=? 90))%N then Some (n - 65)%N
  else if ((97 <=? n) && (n <=? 122))%N then Some (n - 71)%N
  else if ((48 <=? n) && (n <=? 57))%N then Some (n + 4)%N
  else if (n =? 43)%N then Some 62%N
  else if (n =? 47)%N then Some 63%N
  else None.

Definition byte_of_N (n : N) : Byte.byte :=
  default Byte.x00 (Byte.of_N (n mod 256)).

Definition binascii_Error (msg : string) : exn := Exn "binascii.Error" msg.

Fixpoint a2b_base64 (s : string) (quad_pos : nat) (leftchar : N) (pads : nat)
    (out : list Byte.byte) : outcome (list Byte.byte) :=
  match s with
  | EmptyString =>
      match quad_pos with
      | O => Ret out
      | 1%nat =>
          Raise (binascii_Error
                   ("Invalid base64-encoded string: number of data characters ("
                      +:+ pretty (length out / 3 * 4 + 1)%nat
                      +:+ ") cannot be 1 more than a multiple of 4"))
      | _ => Raise (binascii_Error "Incorrect padding")
      end
  | String ch rest =>
      if Ascii.eqb ch "=" then
        if (2 <=? quad_pos)%nat && (4 <=? quad_pos + S pads)%nat then Ret out
        else a2b_base64 rest quad_pos leftchar
               (if (2 <=? quad_pos)%nat then S pads else pads) out
      else
        match b64_value ch with
        | None => a2b_base64 rest quad_pos leftchar pads out
        | Some v =>
            match quad_pos with
            | O => a2b_base64 rest 1 v 0 out
            | 1%nat =>
                a2b_base64 rest 2 (N.land v 15) 0
                  (out ++ [byte_of_N (N.lor (N.shiftl leftchar 2) (N.shiftr v 4))])
            | 2%nat =>
                a2b_base64 rest 3 (N.land v 3) 0
                  (out ++ [byte_of_N (N.lor (N.shiftl leftchar 4) (N.shiftr v 2))])
            | _ =>
                a2b_base64 rest 0 0 0
                  (out ++ [byte_of_N (N.lor (N.shiftl leftchar 6) v)])
            end
        end
  end.

Fixpoint is_ascii (s : string) : bool :=
  match s with
  | EmptyString => true
  | String a t => (N_of_ascii a <? 128)%N && is_ascii t
  end.

(** [base64.b64decode(s)] on a [str] *)
Definition py_b64decode (s : string) : outcome (list Byte.byte) :=
  if is_ascii s then a2b_base64 s 0 0 0 []
  else Raise (Exn "ValueError" "string argument should contain only ASCII characters").

(** A stand-in for the conversion libraries: the text of the file,
    refused when an Office or PDF file lacks its magic number *)
Definition toy_convert (b : Backend) (path : string) (content : list Byte.byte)
    : outcome string :=
  let ext := lower (Pathlib.suffix (Pathlib.Path path)) in
  let text := String.string_of_list_byte content in
  match b with
  | DocumentConverter _ =>
      if startswith "%PDF" text then Ret ("<!-- pdf -->" +:+ text)
      else Raise (Exn "ConversionError" "Input document is not valid.")
  | MarkItDown _ =>
      if mem ext [".docx"; ".xlsx"; ".pptx"] && negb (startswith "PK" text) then
        Raise (Exn "FileConversionException" "File is not a zip file")
      else Ret text
  end.

Definition hex_digit (n : N) : ascii :=
  if (n <? 10)%N then ascii_of_N (48 + n) else ascii_of_N (87 + n).

Fixpoint hex_of (digits : nat) (n : N) : string :=
  match digits with
  | O => ""
  | S k => hex_of k (n / 16) +:+ String (hex_digit (n mod 16)) ""
  end.

(** UUIDs whose leading eight digits differ from one call to the next *)
Definition toy_uuid4_hex (n : nat) : string :=
  hex_of 8 ((N.of_nat n * 2654435761 + 1013904223) mod 4294967296)
    +:+ "9d2c4b7ea1f03586c7d4e2ab".

Definition platform : Platform :=
  {| b64decode := py_b64decode;
     backend_convert := toy_convert;
     uuid4_hex := toy_uuid4_hex;
     mkdtemp := "/tmp/mcp_converter_q8x2v1nd";
     set_iter := fun l => l |}.

Definition file (text : string) (created : Z) : File :=
  {| data := String.list_byte_of_string text; ctime := created; readable := true |}.

(** A fresh process: its two directories exist and are empty *)
Definition fresh : World :=
  {| files := ∅;
     dirs := {[ "/tmp"; "/tmp/mcp_converter_q8x2v1nd";
                "/tmp/mcp_converter_q8x2v1nd/uploads";
                "/tmp/mcp_converter_q8x2v1nd/outputs" ]};
     cwd := "/srv/app";
     clock := 1700000000;
     uuid_count := 0;
     log := [] |}.

(** The same process with an account file outside the served roots *)
Definition with_passwd : World :=
  with_files <["/etc/passwd" := file "root:x:0:0:root:/root:/bin/sh" 1600000000]> fresh.

(** The same process with an installer dropped under [/tmp] *)
Definition in_tmp : World :=
  with_files <["/tmp/setup.exe" := file "MZ" 1699999000]> fresh.

(** Two documents waiting under [/tmp/in] *)
Definition two_documents : World :=
  with_files
    (fun m =>
       <["/tmp/in/paper.PDF" := file "%PDF-1.7 body" 1699990000]>
      (<["/tmp/in/notes.txt" := file "plain notes" 1699990500]> m))
    (with_dirs (union {["/tmp/in"]}) fresh).

(** A documentation folder under the working directory *)
Definition repo : World :=
  with_files
    (fun m =>
       <["/srv/app/docs/readme.txt" := file "hello" 1699000000]>
      (<["/srv/app/docs/broken.docx" := file "not a zip" 1699000100]>
      (<["/srv/app/docs/slides.pptx" := file "PK slides" 1699000200]>
      (<["/srv/app/docs/img/logo.txt" := file "logo" 1699000300]> m))))
    (with_dirs (union {["/srv/app/docs"; "/srv/app/docs/img"]}) fresh).

(** Files handed over under [/shared] *)
Definition shared_inbox : World :=
  with_files
    (fun m =>
       <["/shared/inbox/notes.txt" := file "plain notes" 1699990500]>
      (<["/shared/inbox/broken.docx" := file "not a zip" 1699990600]> m))
    (with_dirs (union {["/shared"; "/shared/inbox"]}) fresh).

(** Three output artifacts, created 30, 61 and 120 minutes ago *)
Definition three_artifacts : World :=
  with_files
    (fun m =>
       <["/tmp/mcp_converter_q8x2v1nd/outputs/a_11111111.md" := file "a" (1700000000 - 30 * 60)]>
      (<["/tmp/mcp_converter_q8x2v1nd/outputs/b_22222222.md" := file "b" (1700000000 - 61 * 60)]>
      (<["/tmp/mcp_converter_q8x2v1nd/outputs/c_33333333.md" := file "c" (1700000000 - 120 * 60)]>
         m)))
    fresh.

(** A payload of one byte more than fifty megabytes, and a platform
    whose decoder hands it out *)
Definition oversize : list Byte.byte :=
  repeat Byte.x41 (Z.to_nat (50 * 1024 * 1024 + 1)).

Definition bulk_platform : Platform :=
  {| b64decode := fun _ => Ret oversize;
     backend_convert := toy_convert;
     uuid4_hex := toy_uuid4_hex;
     mkdtemp := "/tmp/mcp_converter_q8x2v1nd";
     set_iter := fun l => l |}.


(** A process whose sets iterate back to front *)
Definition shuffled_platform : Platform :=
  {| b64decode := py_b64decode;
     backend_convert := toy_convert;
     uuid4_hex := toy_uuid4_hex;
     mkdtemp := "/tmp/mcp_converter_q8x2v1nd";
     set_iter := @rev string |}.

(** The names [tempfile] hands out: under [/tmp], numbered by the files
    already there *)
Definition mkstemp (w : World) (suffix : string) : string :=
  "/tmp/tmp" +:+ hex_of 8 (N.of_nat (size (files w)) * 40503 + 2891336453) +:+ suffix.

End Demo.

(** * Properties *)

(** ** The runtime model against the Python it stands for *)

Module PyChecks.
Import Py.

Example split_ex : split "/" "a//b/" = ["a"; ""; "b"; ""].
Proof. reflexivity. Qed.
Example split_empty : split "/" "" = [""].
Proof. reflexivity. Qed.
Example rfind_ex : rfind "." "a.tar.gz" = 5 /\ rfind "." "abc" = -1.
Proof. split; reflexivity. Qed.
Example lower_ex : lower ".PdF" = ".pdf".
Proof. reflexivity. Qed.
Example contains_ex :
  contains "not supported" "File type not supported." = true
  /\ contains "50MB" "File type not supported." = false.
Proof. split; reflexivity. Qed.

End PyChecks.

Module OsPathChecks.
Import Py OsPath.

Example basename_ex :
  basename "/tmp/a.txt" = "a.txt" /\ basename "a/b/" = "" /\ basename "x" = "x".
Proof. repeat split; reflexivity. Qed.
Example join_ex :
  join "/a" "b" = "/a/b" /\ join "/a/" "b" = "/a/b" /\ join "/a" "/b" = "/b"
  /\ join "" "b" = "b" /\ join "/a" "" = "/a/".
Proof. repeat split; reflexivity. Qed.
Example splitext_ex :
  splitext "dir/a.TXT" = ("dir/a", ".TXT") /\ splitext ".txt" = (".txt", "")
  /\ splitext "a." = ("a", ".") /\ splitext "..a" = ("..a", "")
  /\ splitext "a.tar.gz" = ("a.tar", ".gz") /\ splitext "x.d/noext" = ("x.d/noext", "").
Proof. repeat split; reflexivity. Qed.
Example normpath_ex :
  normpath "/tmp/../etc/passwd" = "/etc/passwd" /\ normpath "//a/../b" = "//b"
  /\ normpath "/.." = "/" /\ normpath "a/../.." = ".." /\ normpath "///x" = "/x"
  /\ normpath "./" = "." /\ normpath "a//b/" = "a/b" /\ normpath "" = ".".
Proof. repeat split; reflexivity. Qed.
Example abspath_ex :
  abspath "/srv" "../tmp/x.txt" = "/tmp/x.txt"
  /\ abspath "/srv" "/tmp/a/../../etc/passwd" = "/etc/passwd".
Proof. repeat split; reflexivity. Qed.

End OsPathChecks.

Module PathlibChecks.
Import Py Pathlib.

Example Path_ex :
  str (Path "/tmp//a/./b.md") = "/tmp/a/b.md" /\ str (Path "") = "."
  /\ str (Path "//a/b") = "//a/b" /\ str (Path "///a") = "/a"
  /\ str (Path "a/./b/.") = "a/b" /\ str (Path "/") = "/".
Proof. repeat split; reflexivity. Qed.
Example name_ex :
  name (Path "dir/a.TXT") = "a.TXT" /\ name (Path "a/b/") = "b"
  /\ name (Path "/") = "" /\ name (Path "..") = "..".
Proof. repeat split; reflexivity. Qed.
Example suffix_ex :
  suffix (Path "dir/a.TXT") = ".TXT" /\ suffix (Path ".txt") = ""
  /\ suffix (Path "a.") = "" /\ suffix (Path "a..b") = ".b"
  /\ suffix (Path "noext") = "" /\ suffix (Path "a.tar.gz") = ".gz"
  /\ suffix (Path "..a") = ".a".
Proof. repeat split; reflexivity. Qed.
Example stem_ex :
  stem (Path "a.tar.gz") = "a.tar" /\ stem (Path ".txt") = ".txt"
  /\ stem (Path "..a") = "." /\ stem (Path "/tmp/report.docx") = "report".
Proof. repeat split; reflexivity. Qed.
Example with_suffix_ex :
  (str <$> with_suffix ".md" (Path "/tmp/x/../a.pdf")) = Some "/tmp/x/../a.md"
  /\ (str <$> with_suffix ".md" (Path "a.")) = Some "a..md"
  /\ (str <$> with_suffix ".md" (Path "/tmp//a/./b.md")) = Some "/tmp/a/b.md"
  /\ with_suffix ".md" (Path "/") = None.
Proof. repeat split; reflexivity. Qed.
Example div_ex :
  str (div (Path "/tmp") "a.txt") = "/tmp/a.txt"
  /\ str (div (Path "/tmp") "/etc/x") = "/etc/x"
  /\ str (div (Path "out") "x/../y") = "out/x/../y"
  /\ str (div (Path "") "") = ".".
Proof. repeat split; reflexivity. Qed.

End PathlibChecks.

Module DemoChecks.
Import Demo.

Example b64_ok :
  py_b64decode "aGVsbG8=" = Ret (String.list_byte_of_string "hello")
  /\ py_b64decode "YQ==YQ==" = Ret (String.list_byte_of_string "a")
  /\ py_b64decode "=" = Ret [] /\ py_b64decode "" = Ret [].
Proof. repeat split; reflexivity. Qed.
Example b64_bad :
  py_b64decode "hello"
    = Raise (binascii_Error
        "Invalid base64-encoded string: number of data characters (5) cannot be 1 more than a multiple of 4")
  /\ py_b64decode "abc" = Raise (binascii_Error "Incorrect padding")
  /\ py_b64decode "ab=c" = Raise (binascii_Error "Incorrect padding")
  /\ py_b64decode "hi!" = Raise (binascii_Error "Incorrect padding").
Proof. repeat split; reflexivity. Qed.
Example uuid_ex :
  take 8 (toy_uuid4_hex 0) = "3c6ef35f" /\ take 8 (toy_uuid4_hex 1) = "daa66d10"
  /\ String.length (toy_uuid4_hex 7) = 32%nat.
Proof. repeat split; reflexivity. Qed.

End DemoChecks.

(** ** Running the embedded programs symbolically *)

Ltac unfold_run :=
  repeat (progress unfold bind, ret, raise, call, gets, modify, try_except,
            try_finally, with_local, outer, get_local, set_local).

Ltac unfold_os :=
  unfold uuid4, write_text, write_bytes, convert, exists_, isfile, isdir,
    access_R_OK, getsize, getctime, remove, makedirs, listdir, walk_files.

Ltac world_simpl :=
  cbn [fst snd files dirs cwd clock uuid_count log emit with_files with_dirs
         next_uuid data ctime readable].

Ltac run_steps := unfold_os; unfold_run; cbv beta iota zeta; world_simpl.

(** ** Strings *)

Lemma truthy_app_r (a b : string) : truthy b = true -> truthy (a +:+ b) = true.
Proof. destruct a, b; simpl; intros; try discriminate; reflexivity. Qed.

Lemma truthy_app_l (a b : string) : truthy a = true -> truthy (a +:+ b) = true.
Proof. destruct a; simpl; intros; try discriminate; reflexivity. Qed.

Lemma truthy_join (a b : string) : truthy b = true -> truthy (OsPath.join a b) = true.
Proof.
  intros Hb. unfold OsPath.join.
  destruct (startswith "/" b); [exact Hb|].
  destruct (negb (truthy a) || endswith_char "/" a);
    repeat (apply truthy_app_r); exact Hb.
Qed.

Lemma present_file (w : World) (p : string) (f : File) :
  files w !! p = Some f -> present w p = true.
Proof. intros H. unfold present. rewrite bool_decide_eq_true_2 by eauto. reflexivity. Qed.

(** ** [improved_mcp_server.py]: the validator and the base64 operation *)

Section ImprovedFacts.

Variable P : Platform.
Import Improved.

Lemma validate_unsupported filename size :
  accepted filename = false ->
  validate_file_content P filename size
  = (false, "File type not supported. Allowed: "
              +:+ Py.join ", " (set_iter P ALLOWED_EXTENSIONS)).
Proof. unfold accepted, validate_file_content. intros ->. reflexivity. Qed.

Lemma validate_too_large filename size :
  accepted filename = true -> MAX_FILE_SIZE < size ->
  validate_file_content P filename size
  = (false, "File too large. Maximum size: 50MB").
Proof.
  unfold accepted, validate_file_content. intros -> Hsz.
  apply Z.ltb_lt in Hsz. unfold negb. cbv iota. rewrite Hsz. reflexivity.
Qed.

Lemma validate_ok filename size :
  accepted filename = true -> size <= MAX_FILE_SIZE ->
  validate_file_content P filename size = (true, "Valid").
Proof.
  unfold accepted, validate_file_content. intros -> Hsz.
  apply Z.ltb_ge in Hsz. unfold negb. cbv iota. rewrite Hsz. reflexivity.
Qed.

(** The three ways through [convert_file_from_base64] *)

Lemma from_base64_undecodable w filename payload e :
  b64decode P payload = Raise e ->
  convert_file_from_base64 P filename payload w
  = (Ret (CROSS +:+ " Invalid base64 content: " +:+ exn_str e), w).
Proof.
  intros H. unfold convert_file_from_base64. unfold_run.
  rewrite H. reflexivity.
Qed.

Lemma from_base64_invalid w filename payload content message :
  b64decode P payload = Ret content ->
  validate_file_content P filename (Z.of_nat (length content)) = (false, message) ->
  convert_file_from_base64 P filename payload w
  = (Ret (CROSS +:+ " Error: " +:+ message), w).
Proof.
  intros H Hv. unfold convert_file_from_base64. unfold_run.
  rewrite H. cbv beta iota. rewrite Hv. reflexivity.
Qed.

Lemma staged_path_truthy w filename : truthy (staged_path P w filename) = true.
Proof. apply truthy_join, truthy_app_r, truthy_app_l. reflexivity. Qed.

Lemma from_base64_staged w filename payload content message :
  b64decode P payload = Ret content ->
  validate_file_content P filename (Z.of_nat (length content)) = (true, message) ->
  convert_file_from_base64 P filename payload w
  = (Ret (match backend_convert P (MarkItDown false)
                  (staged_path P w filename) content with
          | Ret text => CHECK +:+ " Conversion successful!" +:+ NL +:+ NL
                          +:+ "--- MARKDOWN CONTENT ---" +:+ NL +:+ text
          | Raise e => CROSS +:+ " Conversion failed: " +:+ exn_str e
          end),
     emit (EvRemove (staged_path P w filename))
       (with_files (delete (staged_path P w filename))
          (emit (EvConvert (MarkItDown false) (staged_path P w filename))
             (emit (EvWrite (staged_path P w filename))
                (with_files
                   <[staged_path P w filename :=
                       {| data := content; ctime := clock w; readable := true |}]>
                   (next_uuid w)))))).
Proof.
  intros H Hv.
  unfold convert_file_from_base64, save_uploaded_file, cleanup_temp_file.
  run_steps.
  rewrite H. cbv beta iota. rewrite Hv. cbv beta iota. unfold negb. cbv beta iota.
  change (OsPath.join (UPLOAD_DIR P) _) with (staged_path P w filename).
  pose proof (staged_path_truthy w filename) as Ht.
  generalize dependent (staged_path P w filename). intros staged Ht.
  world_simpl. rewrite lookup_insert_eq. world_simpl.
  destruct (backend_convert P (MarkItDown false) staged content) as [text|e];
    repeat first [ rewrite Ht | rewrite lookup_insert_eq
                 | erewrite present_file by (world_simpl; apply lookup_insert_eq)
                 | progress world_simpl | progress cbv beta iota ];
    reflexivity.
Qed.

End ImprovedFacts.

(** ** [improved_mcp_server.py]: the path operation *)

Section ImprovedPathFacts.

Variable P : Platform.
Import Improved.

Lemma from_path_denied w file_path output_name :
  in_allowed_roots w file_path = false ->
  convert_file_from_path P file_path output_name w
  = (Ret (CROSS +:+ " Access denied: File must be in /tmp/ or /shared/ directory"), w).
Proof.
  unfold in_allowed_roots. intros H.
  unfold convert_file_from_path. unfold_run. rewrite H. reflexivity.
Qed.

Lemma from_path_inaccessible w file_path output_name :
  in_allowed_roots w file_path = true ->
  accessible w file_path = false ->
  convert_file_from_path P file_path output_name w
  = (Ret (CROSS +:+ " File not accessible: " +:+ file_path), w).
Proof.
  unfold in_allowed_roots, accessible. intros H Ha.
  unfold convert_file_from_path. run_steps. rewrite H. cbn [negb]. cbv beta iota.
  destruct (present w file_path);
    cbn [negb andb] in *; cbv beta iota; [|reflexivity].
  rewrite Ha. reflexivity.
Qed.

Lemma from_path_invalid w file_path output_name message :
  in_allowed_roots w file_path = true ->
  accessible w file_path = true ->
  (forall size,
     validate_file_content P (OsPath.basename file_path) size = (false, message)) ->
  convert_file_from_path P file_path output_name w
  = (Ret (CROSS +:+ " Error: " +:+ message), w).
Proof.
  unfold in_allowed_roots, accessible. intros H Ha Hv.
  unfold convert_file_from_path. run_steps. rewrite H. cbn [negb]. cbv beta iota.
  apply andb_true_iff in Ha as [Hex Hr]. rewrite Hex. cbn [negb]. cbv beta iota.
  rewrite Hr. cbn [negb]. cbv beta iota.
  destruct (files w !! file_path) as [f|]; cbv beta iota.
  - rewrite Hv. reflexivity.
  - rewrite Hr. cbv beta iota. rewrite Hv. reflexivity.
Qed.

End ImprovedPathFacts.

(** ** Failures that are returned, failures that are raised *)

Section Returned.

Local Arguments String.append : simpl nomatch.
Variable P : Platform.
Import Improved.

Lemma startswith_app (p x : string) : startswith p (p +:+ x) = true.
Proof.
  induction p as [|a p IH]; simpl; [reflexivity|].
  rewrite Ascii.eqb_refl. exact IH.
Qed.




End Returned.



(** ** Requests turned away before anything is staged *)

(** C4 — a path whose normalised absolute form lies under neither
    [/tmp/] nor [/shared/] gets the access-denied answer, and the world
    comes back as it was: no file or directory has changed and the
    effect log has gained no entry, so no backend was handed the file
    and its content was never read. *)
Theorem path_outside_allowed_roots_is_denied
    (P : Platform) (w : World) (file_path : string) (output_name : option string)
    (Houtside : Improved.in_allowed_roots w file_path = false) :
  Improved.convert_file_from_path P file_path output_name w
  = (Ret (Improved.CROSS
            +:+ " Access denied: File must be in /tmp/ or /shared/ directory"), w).
Proof. exact (from_path_denied P w file_path output_name Houtside). Qed.

Lemma path_outside_allowed_roots_is_denied_witness :
  Improved.in_allowed_roots Demo.with_passwd "/tmp/../etc/passwd" = false
  /\ Improved.convert_file_from_path Demo.platform "/tmp/../etc/passwd" None
       Demo.with_passwd
     = (Ret (Improved.CROSS
               +:+ " Access denied: File must be in /tmp/ or /shared/ directory"),
        Demo.with_passwd).
Proof.
  split; [reflexivity|].
  apply (path_outside_allowed_roots_is_denied Demo.platform Demo.with_passwd
           "/tmp/../etc/passwd" None).
  reflexivity.
Defined.

(** C5 (amended) — in [improved_mcp_server.py], a payload that
    [base64.b64decode] rejects makes [convert_file_from_base64] return
    the invalid-base64 failure at once; the world is untouched: nothing
    staged, nothing written or removed, no UUID drawn. *)
Theorem undecodable_payload_is_rejected_unstaged
    (P : Platform) (w : World) (filename payload : string) (e : exn)
    (Hbad : b64decode P payload = Raise e) :
  Improved.convert_file_from_base64 P filename payload w
  = (Ret (Improved.CROSS +:+ " Invalid base64 content: " +:+ exn_str e), w).
Proof. exact (from_base64_undecodable P w filename payload e Hbad). Qed.

Lemma undecodable_payload_is_rejected_unstaged_witness :
  b64decode Demo.platform "abc" = Raise (Demo.binascii_Error "Incorrect padding")
  /\ Improved.convert_file_from_base64 Demo.platform "note.txt" "abc" Demo.fresh
     = (Ret (Improved.CROSS +:+ " Invalid base64 content: " +:+ "Incorrect padding"),
        Demo.fresh).
Proof.
  split; [reflexivity|].
  apply (undecodable_payload_is_rejected_unstaged Demo.platform Demo.fresh
           "note.txt" "abc" (Demo.binascii_Error "Incorrect padding")).
  reflexivity.
Defined.

(** C5, as stated, fails — [server.py] takes a payload that does not
    decode for plain text: it stages it, converts it and leaves the
    Markdown output behind. *)
Lemma server_stages_undecodable_payload :
  b64decode Demo.platform "abc" = Raise (Demo.binascii_Error "Incorrect padding")
  /\ fst (Server.convert_file_content_to_markdown Demo.platform "abc" "note.txt"
            "/tmp" Demo.fresh)
     = Ret ("File converted successfully. Markdown saved to: /tmp/note.md"
              +:+ NL +:+ NL +:+ "Content:" +:+ NL +:+ "abc")
  /\ log (snd (Server.convert_file_content_to_markdown Demo.platform "abc" "note.txt"
                 "/tmp" Demo.fresh))
     = [EvWrite "/tmp/note.txt"; EvConvert (MarkItDown false) "/tmp/note.txt";
        EvWrite "/tmp/note.md"; EvRemove "/tmp/note.txt"]
  /\ files (snd (Server.convert_file_content_to_markdown Demo.platform "abc" "note.txt"
                   "/tmp" Demo.fresh)) !! "/tmp/note.md"
     = Some (Demo.file "abc" 1700000000).
Proof. repeat split; vm_compute; reflexivity. Qed.

(** C6 (amended) — a filename whose extension, lower-cased, is not one
    of the accepted ones (a missing extension included) makes both
    conversion operations of [improved_mcp_server.py] return a failure
    and leave the world as it was, so nothing is written.  The failure
    names the unsupported type whenever the request gets as far as the
    validator: the payload decodes, respectively the path is
    allow-listed, present and readable.  Before that, the failure is the
    one of the earlier check. *)
Theorem unsupported_extension_is_rejected_unwritten
    (P : Platform) (w : World) (filename payload file_path : string)
    (output_name : option string)
    (Hext : Improved.accepted filename = false)
    (Hbase : OsPath.basename file_path = filename) :
  Improved.convert_file_from_base64 P filename payload w
  = (Ret (match b64decode P payload with
          | Ret _ =>
              Improved.CROSS +:+ " Error: " +:+ "File type not supported. Allowed: "
                +:+ Py.join ", " (set_iter P Improved.ALLOWED_EXTENSIONS)
          | Raise e => Improved.CROSS +:+ " Invalid base64 content: " +:+ exn_str e
          end), w)
  /\ Improved.convert_file_from_path P file_path output_name w
  = (Ret (if negb (Improved.in_allowed_roots w file_path) then
            Improved.CROSS
              +:+ " Access denied: File must be in /tmp/ or /shared/ directory"
          else if negb (accessible w file_path) then
            Improved.CROSS +:+ " File not accessible: " +:+ file_path
          else
            Improved.CROSS +:+ " Error: " +:+ "File type not supported. Allowed: "
              +:+ Py.join ", " (set_iter P Improved.ALLOWED_EXTENSIONS)), w).
Proof.
  split.
  - destruct (b64decode P payload) as [content|e] eqn:Hdec.
    + apply from_base64_invalid with (content := content); [exact Hdec|].
      apply validate_unsupported, Hext.
    + apply from_base64_undecodable, Hdec.
  - destruct (Improved.in_allowed_roots w file_path) eqn:Hroot; cbn [negb].
    + destruct (accessible w file_path) eqn:Hacc; cbn [negb].
      * apply from_path_invalid; [exact Hroot|exact Hacc|].
        intros size. rewrite Hbase. apply validate_unsupported, Hext.
      * apply from_path_inaccessible; assumption.
    + apply from_path_denied, Hroot.
Qed.

Lemma unsupported_extension_is_rejected_unwritten_witness :
  Improved.accepted "setup.exe" = false
  /\ OsPath.basename "/tmp/setup.exe" = "setup.exe"
  /\ Improved.convert_file_from_base64 Demo.platform "setup.exe" "aGVsbG8=" Demo.in_tmp
     = (Ret (Improved.CROSS +:+ " Error: " +:+ "File type not supported. Allowed: "
               +:+ ".pdf, .docx, .doc, .txt, .html, .xlsx, .pptx"), Demo.in_tmp)
  /\ Improved.convert_file_from_path Demo.platform "/tmp/setup.exe" None Demo.in_tmp
     = (Ret (Improved.CROSS +:+ " Error: " +:+ "File type not supported. Allowed: "
               +:+ ".pdf, .docx, .doc, .txt, .html, .xlsx, .pptx"), Demo.in_tmp).
Proof.
  split; [reflexivity|]. split; [reflexivity|].
  apply (unsupported_extension_is_rejected_unwritten Demo.platform Demo.in_tmp
           "setup.exe" "aGVsbG8=" "/tmp/setup.exe" None); reflexivity.
Defined.

(** C6, as stated, fails — with an extension outside the accepted set
    and a payload that does not decode, the failure reports the encoding
    and says nothing of the type. *)
Lemma unsupported_extension_reported_as_bad_encoding :
  Improved.accepted "setup.exe" = false
  /\ Improved.convert_file_from_base64 Demo.platform "setup.exe" "abc" Demo.fresh
     = (Ret (Improved.CROSS +:+ " Invalid base64 content: Incorrect padding"),
        Demo.fresh)
  /\ contains "supported"
       (Improved.CROSS +:+ " Invalid base64 content: Incorrect padding") = false.
Proof. repeat split; reflexivity. Qed.

(** C7 (amended) — a payload that decodes to more than [MAX_FILE_SIZE]
    bytes (50 MB) is rejected before staging: the world comes back as it
    was, so no file appears under the upload directory.  The failure
    reports the limit, 50MB, when the filename's extension is accepted;
    otherwise the extension is checked first and the failure is the
    unsupported-type one. *)
Theorem oversize_payload_is_rejected_unstaged
    (P : Platform) (w : World) (filename payload : string)
    (content : list Byte.byte)
    (Hdec : b64decode P payload = Ret content)
    (Hbig : Improved.MAX_FILE_SIZE < Z.of_nat (length content)) :
  Improved.convert_file_from_base64 P filename payload w
  = (Ret (if Improved.accepted filename then
            Improved.CROSS +:+ " Error: " +:+ "File too large. Maximum size: 50MB"
          else
            Improved.CROSS +:+ " Error: " +:+ "File type not supported. Allowed: "
              +:+ Py.join ", " (set_iter P Improved.ALLOWED_EXTENSIONS)), w).
Proof.
  destruct (Improved.accepted filename) eqn:Hext;
    apply from_base64_invalid with (content := content); try exact Hdec.
  - apply validate_too_large; assumption.
  - apply validate_unsupported, Hext.
Qed.

Lemma oversize_is_over_the_limit :
  Improved.MAX_FILE_SIZE < Z.of_nat (length Demo.oversize).
Proof.
  unfold Demo.oversize, Improved.MAX_FILE_SIZE. rewrite repeat_length. lia.
Qed.

Lemma oversize_payload_is_rejected_unstaged_witness :
  b64decode Demo.bulk_platform "QUFB" = Ret Demo.oversize
  /\ Improved.MAX_FILE_SIZE < Z.of_nat (length Demo.oversize)
  /\ Improved.convert_file_from_base64 Demo.bulk_platform "scan.pdf" "QUFB" Demo.fresh
     = (Ret (Improved.CROSS +:+ " Error: " +:+ "File too large. Maximum size: 50MB"),
        Demo.fresh).
Proof.
  split; [reflexivity|]. split; [exact oversize_is_over_the_limit|].
  apply (oversize_payload_is_rejected_unstaged Demo.bulk_platform Demo.fresh
           "scan.pdf" "QUFB" Demo.oversize);
    [reflexivity | exact oversize_is_over_the_limit].
Defined.

(** C7, as stated, fails — an oversize payload under a filename with an
    unsupported extension is rejected on the extension, and the failure
    does not report the size limit. *)
Lemma oversize_payload_reported_as_unsupported :
  Improved.MAX_FILE_SIZE < Z.of_nat (length Demo.oversize)
  /\ Improved.convert_file_from_base64 Demo.bulk_platform "scan.exe" "QUFB" Demo.fresh
     = (Ret (Improved.CROSS +:+ " Error: " +:+ "File type not supported. Allowed: "
               +:+ ".pdf, .docx, .doc, .txt, .html, .xlsx, .pptx"), Demo.fresh)
  /\ contains "50"
       (Improved.CROSS +:+ " Error: " +:+ "File type not supported. Allowed: "
          +:+ ".pdf, .docx, .doc, .txt, .html, .xlsx, .pptx") = false.
Proof.
  split; [exact oversize_is_over_the_limit|]. split; [|reflexivity].
  apply from_base64_invalid with (content := Demo.oversize); [reflexivity|].
  apply validate_unsupported. reflexivity.
Qed.

(** ** The staged input after the call *)

(** In [improved_mcp_server.py] the [finally] block does its work: a
    call either stages nothing, or writes one file, hands it to the
    backend and removes it, whatever the backend answered. *)
Lemma improved_releases_staged_input
    (P : Platform) (w : World) (filename payload : string) :
  let w' := snd (Improved.convert_file_from_base64 P filename payload w) in
  w' = w
  \/ exists staged,
       log w' = log w ++ [EvWrite staged; EvConvert (MarkItDown false) staged;
                          EvRemove staged]
       /\ files w' !! staged = None.
Proof.
  cbv zeta.
  destruct (b64decode P payload) as [content|e] eqn:Hdec.
  - destruct (Improved.validate_file_content P filename (Z.of_nat (length content)))
      as [[|] message] eqn:Hv.
    + right. exists (Improved.staged_path P w filename).
      rewrite (from_base64_staged P w filename payload content message Hdec Hv).
      world_simpl. split.
      * rewrite <- !app_assoc. reflexivity.
      * apply lookup_delete_eq.
    + left. rewrite (from_base64_invalid P w filename payload content message Hdec Hv).
      reflexivity.
  - left. rewrite (from_base64_undecodable P w filename payload e Hdec). reflexivity.
Qed.

(** In [server.py] the removal sits after the conversion with no
    [finally] around it: whenever [convert_file_content_to_markdown]
    raises past the creation of its directory, the staged input is still
    on disk. *)
Lemma server_failure_leaves_staged_input
    (P : Platform) (w w' : World) (content filename output_dir : string) (e : exn) :
  files w !! Pathlib.str (Pathlib.Path output_dir) = None ->
  Server.convert_file_content_to_markdown P content filename output_dir w
    = (Raise e, w') ->
  is_Some (files w' !! Pathlib.str (Pathlib.div (Pathlib.Path output_dir) filename)).
Proof.
  intros Hfree.
  unfold Server.convert_file_content_to_markdown, Server.convert_file_to_markdown.
  set (staged := Pathlib.str (Pathlib.div (Pathlib.Path output_dir) filename)).
  set (out := Pathlib.str (Pathlib.Path output_dir)) in *.
  run_steps. rewrite Hfree.
  rewrite bool_decide_eq_false_2 by (intros [? ?]; discriminate).
  destruct (bool_decide (out ∈ dirs w)); cbv beta iota; world_simpl;
    (destruct (b64decode P content) as [decoded|e0]; cbv beta iota; world_simpl);
    match goal with
    | |- context [present ?w1 ?p] => destruct (present w1 p)
    end; cbn [negb]; cbv beta iota; world_simpl;
    repeat (match goal with
            | |- context [if ?b then _ else _] => destruct b
            | |- context [match ?m !! ?k with _ => _ end] => destruct (m !! k)
            | |- context [match backend_convert ?a ?b ?c ?d with _ => _ end] =>
                destruct (backend_convert a b c d)
            | |- context [match Pathlib.with_suffix ?a ?b with _ => _ end] =>
                destruct (Pathlib.with_suffix a b)
            end; cbv beta iota; world_simpl);
    first [ intros [= <- <-]; world_simpl; rewrite lookup_insert_eq; eauto
          | intros [=] ].
Qed.

(** C1 — [server.py] breaks the claim at this request: the payload
    decodes and is staged as [/tmp/report.docx], the backend refuses it,
    the exception leaves [convert_file_content_to_markdown] before its
    [unlink], and the staged file is still there after the call. *)
Theorem server_keeps_staged_file_when_backend_fails :
  Demo.py_b64decode "aGVsbG8=" = Ret (String.list_byte_of_string "hello")
  /\ fst (Server.convert_file_content_to_markdown Demo.platform "aGVsbG8="
            "report.docx" "/tmp" Demo.fresh)
     = Raise (Exn "FileConversionException" "File is not a zip file")
  /\ log (snd (Server.convert_file_content_to_markdown Demo.platform "aGVsbG8="
                 "report.docx" "/tmp" Demo.fresh))
     = [EvWrite "/tmp/report.docx"; EvConvert (MarkItDown false) "/tmp/report.docx"]
  /\ files (snd (Server.convert_file_content_to_markdown Demo.platform "aGVsbG8="
                   "report.docx" "/tmp" Demo.fresh)) !! "/tmp/report.docx"
     = Some (Demo.file "hello" 1700000000).
Proof. repeat split; vm_compute; reflexivity. Qed.

(** ** The sweep *)

(** [cleanup_old_files] never removes anything: with no artifact it
    reports a count of zero, and with any artifact the first comparison
    raises on [os.time] and the handler reports the failure. *)
Lemma sweep_never_removes (P : Platform) (w : World) :
  snd (Improved.cleanup_old_files P w) = w
  /\ (fst (Improved.cleanup_old_files P w)
        = Ret (Improved.CHECK +:+ " Cleaned up " +:+ "0" +:+ " old files")
      \/ exists e,
           fst (Improved.cleanup_old_files P w)
             = Ret (Improved.CROSS +:+ " Cleanup failed: " +:+ exn_str e)).
Proof.
  unfold Improved.cleanup_old_files, Improved.os_time_time. run_steps.
  match goal with |- context [for_each ?l _ _] => destruct l as [|p rest] end.
  - cbn [for_each]. unfold_run. split; [reflexivity|]. left. reflexivity.
  - cbn [for_each]. run_steps.
    destruct (files w !! p) as [f|]; cbv beta iota; (split; [reflexivity|]);
      right; eexists; reflexivity.
Qed.

(** C2 — the code breaks the claim on the claim's own scenario: with
    artifacts aged 30, 61 and 120 minutes the sweep removes none of them
    and reports a failure instead of the count 2. *)
Theorem sweep_fails_on_the_three_artifacts :
  (ctime <$> files Demo.three_artifacts
               !! "/tmp/mcp_converter_q8x2v1nd/outputs/a_11111111.md")
    = Some (clock Demo.three_artifacts - 30 * 60)
  /\ (ctime <$> files Demo.three_artifacts
                  !! "/tmp/mcp_converter_q8x2v1nd/outputs/b_22222222.md")
    = Some (clock Demo.three_artifacts - 61 * 60)
  /\ (ctime <$> files Demo.three_artifacts
                  !! "/tmp/mcp_converter_q8x2v1nd/outputs/c_33333333.md")
    = Some (clock Demo.three_artifacts - 120 * 60)
  /\ Improved.cleanup_old_files Demo.platform Demo.three_artifacts
    = (Ret (Improved.CROSS +:+ " Cleanup failed: "
              +:+ "module 'os' has no attribute 'time'"), Demo.three_artifacts).
Proof. repeat split; vm_compute; reflexivity. Qed.

(** ** The choice of backend *)

(** C8 — for a path that exists, [convert_file_to_markdown] hands the
    file to exactly one backend, chosen by the lower-cased extension
    alone: [.pdf] selects the document converter with OCR on, anything
    else selects MarkItDown.  What follows the backend call in the log
    is at most the write of the Markdown output. *)
Theorem backend_is_selected_by_extension
    (P : Platform) (w : World) (file_path : string)
    (Hthere : present w (Pathlib.str (Pathlib.Path file_path)) = true) :
  exists rest,
    log (snd (Server.convert_file_to_markdown P file_path w))
    = log w
        ++ EvConvert
             (if String.eqb (lower (Pathlib.suffix (Pathlib.Path file_path))) ".pdf"
              then DocumentConverter true
              else MarkItDown false)
             (Pathlib.str (Pathlib.Path file_path))
        :: rest
    /\ (rest = [] \/ exists out, rest = [EvWrite out]).
Proof.
  unfold Server.convert_file_to_markdown. run_steps. rewrite Hthere.
  cbn [negb]. cbv beta iota.
  destruct (String.eqb (lower (Pathlib.suffix (Pathlib.Path file_path))) ".pdf");
    cbv beta iota;
    (destruct (files w !! Pathlib.str (Pathlib.Path file_path)) as [f|];
     cbv beta iota;
     [ match goal with
       | |- context [backend_convert ?a ?b ?c ?d] =>
           destruct (backend_convert a b c d) as [text|e]
       end; cbv beta iota;
       [ destruct (Pathlib.with_suffix ".md" (Pathlib.Path file_path)) as [out|];
         cbv beta iota; world_simpl
       | world_simpl ]
     | world_simpl ]);
    eexists; (split; [rewrite <- ?app_assoc; reflexivity|]); eauto.
Qed.

Lemma backend_is_selected_by_extension_witness :
  present Demo.two_documents (Pathlib.str (Pathlib.Path "/tmp/in//paper.PDF")) = true
  /\ exists rest,
       log (snd (Server.convert_file_to_markdown Demo.platform "/tmp/in//paper.PDF"
                   Demo.two_documents))
       = log Demo.two_documents
           ++ EvConvert (DocumentConverter true) "/tmp/in/paper.PDF" :: rest
       /\ (rest = [] \/ exists out, rest = [EvWrite out]).
Proof.
  split; [reflexivity|].
  apply (backend_is_selected_by_extension Demo.platform Demo.two_documents
           "/tmp/in//paper.PDF").
  reflexivity.
Defined.

(** ** More on strings *)

Section StringFacts.
Local Arguments String.append : simpl nomatch.

Lemma app_nil_r_s (a : string) : a +:+ "" = a.
Proof. induction a; simpl; congruence. Qed.

Lemma app_assoc_s (a b c : string) : (a +:+ b) +:+ c = a +:+ b +:+ c.
Proof. induction a; simpl; congruence. Qed.

Lemma length_app_s (a b : string) :
  String.length (a +:+ b) = (String.length a + String.length b)%nat.
Proof. induction a; simpl; congruence. Qed.

Lemma lacks_app c a b : lacks c (a +:+ b) = lacks c a && lacks c b.
Proof. induction a as [|x a IH]; simpl; [reflexivity|]. rewrite IH. apply andb_assoc. Qed.

Lemma lacks_take c n s : lacks c s = true -> lacks c (take n s) = true.
Proof.
  revert s. induction n as [|n IH]; intros [|a s]; simpl; try reflexivity.
  intros [Ha Hs]%andb_true_iff. rewrite Ha. simpl. auto.
Qed.

Lemma lacks_startswith c s : lacks c s = true -> startswith (String c "") s = false.
Proof.
  destruct s as [|a s]; simpl; [reflexivity|].
  intros [Ha _]%andb_true_iff. rewrite Ascii.eqb_sym. 
  destruct (Ascii.eqb a c); [discriminate|reflexivity].
Qed.

Lemma split_lacks c s : lacks c s = true -> split c s = [s].
Proof.
  induction s as [|a s IH]; simpl; [reflexivity|].
  intros [Ha Hs]%andb_true_iff. destruct (Ascii.eqb a c); [discriminate|].
  rewrite (IH Hs). reflexivity.
Qed.

Lemma split_nonempty c s : split c s <> [].
Proof.
  induction s as [|a s IH]; simpl; [discriminate|].
  destruct (Ascii.eqb a c); [discriminate|]. destruct (split c s); discriminate.
Qed.

Lemma split_app c a b :
  split c (a +:+ String c b) = split c a ++ split c b.
Proof.
  induction a as [|x a IH]; simpl.
  - rewrite Ascii.eqb_refl. reflexivity.
  - destruct (Ascii.eqb x c); [rewrite IH; reflexivity|].
    rewrite IH. pose proof (split_nonempty c a) as Hne.
    destruct (split c a); [congruence|reflexivity].
Qed.

Lemma split_elements_lack c s : Forall (fun x => lacks c x = true) (split c s).
Proof.
  induction s as [|a s IH]; simpl; [repeat constructor|].
  destruct (Ascii.eqb a c) eqn:Ha; [constructor; [reflexivity|exact IH]|].
  destruct (split c s) as [|w ws]; [repeat constructor; simpl; rewrite Ha; reflexivity|].
  inversion IH; subst. constructor; [simpl; rewrite Ha; simpl; assumption|assumption].
Qed.

Lemma rfind_lacks c s : lacks c s = true -> rfind c s = -1.
Proof.
  induction s as [|a s IH]; simpl; [reflexivity|].
  intros [Ha Hs]%andb_true_iff. rewrite (IH Hs). simpl.
  destruct (Ascii.eqb a c); [discriminate|reflexivity].
Qed.



Lemma drop_app_length (a b : string) n :
  drop (String.length a + n) (a +:+ b) = drop n b.
Proof. induction a; simpl; auto. Qed.

Lemma endswith_app c a b : truthy b = true -> endswith_char c (a +:+ b) = endswith_char c b.
Proof.
  intros Hb. induction a as [|x a IH]; simpl; [reflexivity|].
  destruct (a +:+ b) eqn:E; [destruct a, b; discriminate|]. exact IH.
Qed.



Lemma contains_char c s : contains (String c "") s = negb (lacks c s).
Proof.
  induction s as [|a s IH]; simpl; [reflexivity|].
  rewrite IH, Ascii.eqb_sym. destruct (Ascii.eqb a c); simpl; [reflexivity|].
  destruct (lacks c s); reflexivity.
Qed.

End StringFacts.

(** ** Paths built by the servers *)

Section PathFacts.
Local Arguments String.append : simpl nomatch.

Lemma hex_digit_not (a c : ascii) :
  is_hex_digit a = true -> is_hex_digit c = false -> Ascii.eqb a c = false.
Proof.
  intros Ha Hc. destruct (Ascii.eqb a c) eqn:E; [|reflexivity].
  apply Ascii.eqb_eq in E. congruence.
Qed.

Lemma all_hex_lacks c s : is_hex_digit c = false -> all_hex s = true -> lacks c s = true.
Proof.
  intros Hc. induction s as [|a s IH]; simpl; [reflexivity|].
  intros [Ha Hs]%andb_true_iff. rewrite (hex_digit_not a c Ha Hc). simpl. auto.
Qed.

Lemma all_hex_take n s : all_hex s = true -> all_hex (take n s) = true.
Proof.
  revert s. induction n as [|n IH]; intros [|a s]; simpl; try reflexivity.
  intros [Ha Hs]%andb_true_iff. rewrite Ha. simpl. auto.
Qed.

Lemma length_take n s : (n <= String.length s)%nat -> String.length (take n s) = n.
Proof.
  revert s. induction n as [|n IH]; intros [|a s]; simpl; intros H; try lia.
  rewrite IH; lia.
Qed.

Lemma token_facts s :
  is_uuid_hex s = true ->
  String.length (take 8 s) = 8%nat
  /\ lacks "/" (take 8 s) = true /\ lacks "." (take 8 s) = true.
Proof.
  unfold is_uuid_hex. intros [Hl Hh]%andb_true_iff. apply Nat.eqb_eq in Hl.
  split; [apply length_take; lia|].
  split; apply all_hex_lacks; try reflexivity; apply all_hex_take, Hh.
Qed.

Lemma filter_split_lstrip s :
  filter Pathlib.keep_part (split "/" (lstrip "/" s))
  = filter Pathlib.keep_part (split "/" s).
Proof.
  induction s as [|a s IH]; [reflexivity|].
  cbn [lstrip split]. destruct (Ascii.eqb a "/") eqn:E; [|cbn [split]; rewrite E; reflexivity].
  rewrite IH. reflexivity.
Qed.

Lemma parts_Path s : Pathlib.parts (Pathlib.Path s) = filter Pathlib.keep_part (split "/" s).
Proof.
  unfold Pathlib.Path, Pathlib.splitroot.
  destruct (startswith "/" s); [|reflexivity].
  destruct (len s - len (lstrip "/" s) =? 2); cbn [Pathlib.parts]; apply filter_split_lstrip.
Qed.



Lemma join_plain d x :
  truthy d = true -> endswith_char "/" d = false -> startswith "/" x = false ->
  OsPath.join d x = d +:+ "/" +:+ x.
Proof. unfold OsPath.join. intros -> -> ->. reflexivity. Qed.

Lemma join_under (d x : string) :
  startswith "/" x = false ->
  OsPath.join d x = (if negb (truthy d) || endswith_char "/" d then d else d +:+ "/") +:+ x.
Proof.
  unfold OsPath.join. intros ->.
  destruct (negb (truthy d) || endswith_char "/" d); [reflexivity|].
  rewrite app_assoc_s. reflexivity.
Qed.

End PathFacts.

(** ** Staged names *)

Section StagedNames.
Local Arguments String.append : simpl nomatch.
Variable P : Platform.
Import Improved.


Lemma name_lacks_slash (filename : string) :
  lacks "/" (Pathlib.name (Pathlib.Path filename)) = true.
Proof.
  unfold Pathlib.name. rewrite parts_Path.
  destruct (last (filter Pathlib.keep_part (split "/" filename))) as [n|] eqn:E;
    [|reflexivity].
  apply last_Some_elem_of, list_elem_of_filter in E as [_ E].
  pose proof (split_elements_lack "/" filename) as Hall.
  rewrite Forall_forall in Hall. exact (Hall n E).
Qed.




End StagedNames.






(** ** [git_server.py]: the loop over a folder *)

Section FolderFacts.
Local Arguments String.append : simpl nomatch.
Variable P : Platform.
Import GitServer.

Lemma child_name_lacks d k n : child_name d k = Some n -> lacks "/" n = true.
Proof.
  unfold child_name.
  destruct (startswith _ k); [|discriminate].
  destruct (truthy _ && negb (contains "/" _)) eqn:E; [|discriminate].
  intros [= <-]. apply andb_true_iff in E as [_ E].
  rewrite contains_char, negb_involutive in E. exact E.
Qed.

Lemma listing_lacks w d : Forall (fun n => lacks "/" n = true) (listing w d).
Proof.
  unfold listing. apply Forall_forall. intros n Hn.
  apply list_elem_of_omap in Hn as (k & _ & Hk).
  exact (child_name_lacks d k n Hk).
Qed.

Lemma splitext_lacks c f : lacks c f = true -> lacks c (fst (OsPath.splitext f)) = true.
Proof.
  intros Hf. unfold OsPath.splitext.
  match goal with |- context [if ?b then _ else _] => destruct b end; cbn [fst];
    [apply lacks_take|]; exact Hf.
Qed.







End FolderFacts.



(** * Further properties *)

(** ** [improved_mcp_server.py]: more on the validator *)

Section LowerFacts.
Local Arguments String.append : simpl nomatch.

Lemma lower_char_eqb_slash a : Ascii.eqb (lower_char a) "/" = Ascii.eqb a "/".
Proof. destruct a as [[] [] [] [] [] [] [] []]; reflexivity. Qed.

Lemma lower_char_eqb_dot a : Ascii.eqb (lower_char a) "." = Ascii.eqb a ".".
Proof. destruct a as [[] [] [] [] [] [] [] []]; reflexivity. Qed.

Lemma lower_char_idem a : lower_char (lower_char a) = lower_char a.
Proof. destruct a as [[] [] [] [] [] [] [] []]; reflexivity. Qed.

Lemma lower_idem s : lower (lower s) = lower s.
Proof. induction s as [|a s IH]; simpl; [reflexivity|]. rewrite lower_char_idem, IH. reflexivity. Qed.

Lemma length_lower s : String.length (lower s) = String.length s.
Proof. induction s; simpl; congruence. Qed.

Lemma truthy_lower s : truthy (lower s) = truthy s.
Proof. destruct s; reflexivity. Qed.

Lemma drop_lower n s : drop n (lower s) = lower (drop n s).
Proof. revert s. induction n as [|n IH]; intros [|a s]; simpl; auto. Qed.

Lemma rfind_lower_dot s : rfind "." (lower s) = rfind "." s.
Proof.
  induction s as [|a s IH]; simpl; [reflexivity|].
  rewrite IH, lower_char_eqb_dot. reflexivity.
Qed.

Lemma split_lower s : split "/" (lower s) = map lower (split "/" s).
Proof.
  induction s as [|a s IH]; simpl; [reflexivity|].
  rewrite lower_char_eqb_slash, IH.
  destruct (Ascii.eqb a "/"); [reflexivity|].
  destruct (split "/" s); reflexivity.
Qed.

Lemma keep_part_lower x : Pathlib.keep_part (lower x) = Pathlib.keep_part x.
Proof.
  unfold Pathlib.keep_part. rewrite truthy_lower. f_equal. f_equal.
  destruct x as [|a [|b x]]; simpl; try reflexivity.
  - rewrite lower_char_eqb_dot. reflexivity.
  - rewrite lower_char_eqb_dot. destruct (Ascii.eqb a "."); reflexivity.
Qed.

Lemma filter_keep_lower l :
  filter Pathlib.keep_part (map lower l) = map lower (filter Pathlib.keep_part l).
Proof.
  induction l as [|x l IH]; [reflexivity|]. cbn [map].
  destruct (Pathlib.keep_part x) eqn:E.
  - rewrite !filter_cons_True by (rewrite ?keep_part_lower, E; exact I).
    cbn [map]. rewrite IH. reflexivity.
  - rewrite !filter_cons_False by (rewrite ?keep_part_lower, E; exact id).
    exact IH.
Qed.

Lemma last_map {A B} (f : A -> B) (l : list A) :
  last (map f l) = option_map f (last l).
Proof.
  induction l as [|x [|y l] IH]; try reflexivity. exact IH.
Qed.

Lemma name_lower s :
  Pathlib.name (Pathlib.Path (lower s)) = lower (Pathlib.name (Pathlib.Path s)).
Proof.
  unfold Pathlib.name. rewrite !parts_Path, split_lower, filter_keep_lower.
  rewrite last_map.
  destruct (last (filter Pathlib.keep_part (split "/" s))); reflexivity.
Qed.

Lemma suffix_lower s :
  Pathlib.suffix (Pathlib.Path (lower s)) = lower (Pathlib.suffix (Pathlib.Path s)).
Proof.
  unfold Pathlib.suffix. rewrite name_lower, rfind_lower_dot.
  unfold len. rewrite length_lower.
  match goal with |- context [if ?b then _ else _] => destruct b end; [|reflexivity].
  unfold slice_from. apply drop_lower.
Qed.

Lemma accepted_lower filename : Improved.accepted (lower filename) = Improved.accepted filename.
Proof. unfold Improved.accepted. rewrite suffix_lower, lower_idem. reflexivity. Qed.

End LowerFacts.


(** X1 — two filenames that differ only in the case of their ASCII
    letters get the same verdict and the same message from
    [validate_file_content]. *)
Theorem validation_ignores_letter_case
    (P : Platform) (filename1 filename2 : string) (size : Z)
    (Hcase : lower filename1 = lower filename2) :
  Improved.validate_file_content P filename1 size
  = Improved.validate_file_content P filename2 size.
Proof.
  assert (Hacc : Improved.accepted filename1 = Improved.accepted filename2)
    by (rewrite <- (accepted_lower filename1), Hcase; apply accepted_lower).
  unfold Improved.validate_file_content. unfold Improved.accepted in Hacc.
  rewrite Hacc. reflexivity.
Qed.

Lemma validation_ignores_letter_case_witness :
  lower "Report.PDF" = lower "report.pdf"
  /\ Improved.validate_file_content Demo.platform "Report.PDF" 2048
     = Improved.validate_file_content Demo.platform "report.pdf" 2048.
Proof.
  split; [reflexivity|].
  apply (validation_ignores_letter_case Demo.platform "Report.PDF" "report.pdf" 2048).
  reflexivity.
Defined.


(** X2 — a filename whose last component has no dot, or whose only
    candidate dot is the first or the last character of that component
    ([.pdf], [archive.]), has no extension for [validate_file_content]
    and is rejected as an unsupported type, whatever its size. *)
Theorem name_without_inner_dot_is_rejected
    (P : Platform) (filename : string) (size : Z)
    (Hdot : rfind "." (Pathlib.name (Pathlib.Path filename)) <= 0
            \/ rfind "." (Pathlib.name (Pathlib.Path filename))
               = len (Pathlib.name (Pathlib.Path filename)) - 1) :
  Improved.validate_file_content P filename size
  = (false, "File type not supported. Allowed: "
              +:+ Py.join ", " (set_iter P Improved.ALLOWED_EXTENSIONS)).
Proof.
  apply validate_unsupported. unfold Improved.accepted, Pathlib.suffix.
  set (nm := Pathlib.name (Pathlib.Path filename)) in *.
  replace ((0 <? rfind "." nm) && (rfind "." nm <? len nm - 1)) with false;
    [reflexivity|].
  symmetry. apply andb_false_iff. destruct Hdot as [H|H].
  - left. apply Z.ltb_ge. exact H.
  - right. apply Z.ltb_ge. lia.
Qed.


Lemma name_without_inner_dot_is_rejected_witness :
  (rfind "." (Pathlib.name (Pathlib.Path "inbox/.pdf")) <= 0
   \/ rfind "." (Pathlib.name (Pathlib.Path "inbox/.pdf"))
      = len (Pathlib.name (Pathlib.Path "inbox/.pdf")) - 1)
  /\ Improved.validate_file_content Demo.platform "inbox/.pdf" 10
     = (false, "File type not supported. Allowed: "
                 +:+ ".pdf, .docx, .doc, .txt, .html, .xlsx, .pptx").
Proof.
  assert (H : rfind "." (Pathlib.name (Pathlib.Path "inbox/.pdf")) <= 0
              \/ rfind "." (Pathlib.name (Pathlib.Path "inbox/.pdf"))
                 = len (Pathlib.name (Pathlib.Path "inbox/.pdf")) - 1)
    by (left; vm_compute; discriminate).
  split; [exact H|].
  exact (name_without_inner_dot_is_rejected Demo.platform "inbox/.pdf" 10 H).
Defined.


(** ** [improved_mcp_server.py]: what the two operations leave behind *)

Section PathRunFacts.
Local Arguments String.append : simpl nomatch.
Variable P : Platform.
Import Improved.

Lemma accessible_file w p f : files w !! p = Some f -> readable f = true -> accessible w p = true.
Proof.
  intros Hf Hr. unfold accessible. rewrite (present_file w p f Hf), Hf. exact Hr.
Qed.

Lemma from_path_run w file_path output_name f :
  in_allowed_roots w file_path = true ->
  files w !! file_path = Some f -> readable f = true ->
  accepted (OsPath.basename file_path) = true ->
  Z.of_nat (length (data f)) <= MAX_FILE_SIZE ->
  convert_file_from_path P file_path output_name w
  = match backend_convert P (MarkItDown false) file_path (data f) with
    | Ret text =>
        (Ret (CHECK +:+ " Conversion successful! Output saved to: "
                +:+ output_path P w file_path output_name),
         emit (EvWrite (output_path P w file_path output_name))
           (with_files
              <[output_path P w file_path output_name :=
                  {| data := String.list_byte_of_string text; ctime := clock w;
                     readable := true |}]>
              (next_uuid (emit (EvConvert (MarkItDown false) file_path) w))))
    | Raise e =>
        (Ret (CROSS +:+ " Conversion failed: " +:+ exn_str e),
         emit (EvConvert (MarkItDown false) file_path) w)
    end.
Proof.
  intros Hroot Hf Hr Hext Hsize.
  pose proof (validate_ok P _ _ Hext Hsize) as Hv.
  unfold convert_file_from_path, output_path. run_steps.
  unfold in_allowed_roots in Hroot. rewrite Hroot. cbn [negb]. cbv beta iota.
  rewrite (present_file w file_path f Hf). cbn [negb]. cbv beta iota.
  rewrite Hf. cbv beta iota. rewrite Hr. cbn [negb]. cbv beta iota.
  rewrite Hf. cbv beta iota. rewrite Hv. cbn [negb]. cbv beta iota.
  rewrite Hf. cbv beta iota.
  destruct (backend_convert P (MarkItDown false) file_path (data f)) as [text|e];
    cbv beta iota; [|reflexivity].
  destruct (named output_name); cbv beta iota; world_simpl; reflexivity.
Qed.
End PathRunFacts.

Section OutputFacts.
Local Arguments String.append : simpl nomatch.
Variable P : Platform.
Import Improved.

Lemma OUTPUT_DIR_plain :
  truthy (OUTPUT_DIR P) = true /\ endswith_char "/" (OUTPUT_DIR P) = false.
Proof.
  unfold OUTPUT_DIR. rewrite join_under by reflexivity.
  split; [apply truthy_app_r; reflexivity|].
  rewrite endswith_app by reflexivity. reflexivity.
Qed.

Lemma startswith_app_l (p a b : string) :
  startswith p a = true -> startswith p (a +:+ b) = true.
Proof.
  revert a. induction p as [|c p IH]; intros [|x a]; simpl; try reflexivity;
    try discriminate.
  destruct (Ascii.eqb c x); [apply IH|discriminate].
Qed.

Lemma stem_lacks_slash (file_path : string) :
  lacks "/" (Pathlib.stem (Pathlib.Path file_path)) = true.
Proof.
  unfold Pathlib.stem.
  match goal with |- context [if ?b then _ else _] => destruct b end;
    [apply lacks_take|]; apply name_lacks_slash.
Qed.

End OutputFacts.


(** X3 — when the name the upload is to be staged under is free,
    [convert_file_from_base64] hands back the file system exactly as it
    found it, on every way out: rejected, converted, or failed in the
    backend. *)
Theorem base64_conversion_leaves_files_as_found
    (P : Platform) (w : World) (filename payload : string)
    (Hfree : files w !! Improved.staged_path P w filename = None) :
  files (snd (Improved.convert_file_from_base64 P filename payload w)) = files w
  /\ dirs (snd (Improved.convert_file_from_base64 P filename payload w)) = dirs w.
Proof.
  destruct (b64decode P payload) as [content|e] eqn:Hdec.
  - destruct (Improved.validate_file_content P filename (Z.of_nat (length content)))
      as [[|] message] eqn:Hv.
    + rewrite (from_base64_staged P w filename payload content message Hdec Hv).
      world_simpl. split; [|reflexivity].
      rewrite delete_insert_eq. apply delete_id, Hfree.
    + rewrite (from_base64_invalid P w filename payload content message Hdec Hv).
      split; reflexivity.
  - rewrite (from_base64_undecodable P w filename payload e Hdec). split; reflexivity.
Qed.


Lemma base64_conversion_leaves_files_as_found_witness :
  files Demo.two_documents !! Improved.staged_path Demo.platform Demo.two_documents "a.txt"
    = None
  /\ files (snd (Improved.convert_file_from_base64 Demo.platform "a.txt" "aGVsbG8="
                   Demo.two_documents)) = files Demo.two_documents
  /\ dirs (snd (Improved.convert_file_from_base64 Demo.platform "a.txt" "aGVsbG8="
                  Demo.two_documents)) = dirs Demo.two_documents.
Proof.
  assert (H : files Demo.two_documents
                !! Improved.staged_path Demo.platform Demo.two_documents "a.txt" = None)
    by (vm_compute; reflexivity).
  split; [exact H|].
  exact (base64_conversion_leaves_files_as_found Demo.platform Demo.two_documents
           "a.txt" "aGVsbG8=" H).
Defined.



(** X5 — when the backend fails on a file that passed every check,
    [convert_file_from_path] returns the failure with the backend's
    message and writes nothing: no output file, no UUID drawn, only the
    backend call in the log. *)
Theorem path_conversion_backend_failure_writes_nothing
    (P : Platform) (w : World) (file_path : string) (output_name : option string)
    (f : File) (e : exn)
    (Hroot : Improved.in_allowed_roots w file_path = true)
    (Hfile : files w !! file_path = Some f)
    (Hread : readable f = true)
    (Hext : Improved.accepted (OsPath.basename file_path) = true)
    (Hsize : Z.of_nat (length (data f)) <= Improved.MAX_FILE_SIZE)
    (Hconv : backend_convert P (MarkItDown false) file_path (data f) = Raise e) :
  Improved.convert_file_from_path P file_path output_name w
  = (Ret (Improved.CROSS +:+ " Conversion failed: " +:+ exn_str e),
     emit (EvConvert (MarkItDown false) file_path) w).
Proof.
  rewrite (from_path_run P w file_path output_name f Hroot Hfile Hread Hext Hsize).
  rewrite Hconv. reflexivity.
Qed.


Lemma path_conversion_backend_failure_writes_nothing_witness :
  Improved.in_allowed_roots Demo.shared_inbox "/shared/inbox/broken.docx" = true
  /\ files Demo.shared_inbox !! "/shared/inbox/broken.docx"
     = Some (Demo.file "not a zip" 1699990600)
  /\ Improved.convert_file_from_path Demo.platform "/shared/inbox/broken.docx" None
       Demo.shared_inbox
     = (Ret (Improved.CROSS +:+ " Conversion failed: " +:+ "File is not a zip file"),
        emit (EvConvert (MarkItDown false) "/shared/inbox/broken.docx")
          Demo.shared_inbox).
Proof.
  do 2 (split; [reflexivity|]).
  assert (Hsize : Z.of_nat (length (data (Demo.file "not a zip" 1699990600)))
                  <= Improved.MAX_FILE_SIZE) by (vm_compute; discriminate).
  exact (path_conversion_backend_failure_writes_nothing Demo.platform
           Demo.shared_inbox "/shared/inbox/broken.docx" None
           (Demo.file "not a zip" 1699990600)
           (Exn "FileConversionException" "File is not a zip file")
           eq_refl eq_refl eq_refl eq_refl Hsize eq_refl).
Defined.

(** X6 — without an output name (absent or empty), the output of
    [convert_file_from_path] lands directly in the output directory: its
    path is [OUTPUT_DIR], a slash, and a leaf without any slash made of
    the input's stem, an underscore, eight hex digits and [.md]. *)
Theorem unnamed_output_lands_in_output_dir
    (P : Platform) (w : World) (file_path : string) (output_name : option string)
    (f : File) (text : string)
    (Hroot : Improved.in_allowed_roots w file_path = true)
    (Hfile : files w !! file_path = Some f)
    (Hread : readable f = true)
    (Hext : Improved.accepted (OsPath.basename file_path) = true)
    (Hsize : Z.of_nat (length (data f)) <= Improved.MAX_FILE_SIZE)
    (Hconv : backend_convert P (MarkItDown false) file_path (data f) = Ret text)
    (Hname : Improved.named output_name = false)
    (Huuid : is_uuid_hex (uuid4_hex P (uuid_count w)) = true) :
  let leaf :=
    Pathlib.stem (Pathlib.Path file_path) +:+ "_"
      +:+ take 8 (uuid4_hex P (uuid_count w)) +:+ ".md" in
  lacks "/" leaf = true
  /\ log (snd (Improved.convert_file_from_path P file_path output_name w))
     = log w ++ [EvConvert (MarkItDown false) file_path;
                 EvWrite (Improved.OUTPUT_DIR P +:+ "/" +:+ leaf)].
Proof.
  cbv zeta. destruct (token_facts _ Huuid) as (_ & Hslash & _).
  assert (Hleaf : lacks "/" (Pathlib.stem (Pathlib.Path file_path) +:+ "_"
                               +:+ take 8 (uuid4_hex P (uuid_count w)) +:+ ".md") = true)
    by (rewrite !lacks_app, stem_lacks_slash, Hslash; reflexivity).
  split; [exact Hleaf|].
  rewrite (from_path_run P w file_path output_name f Hroot Hfile Hread Hext Hsize).
  rewrite Hconv. world_simpl. unfold Improved.output_path. rewrite Hname.
  destruct (OUTPUT_DIR_plain P) as [Ht He].
  rewrite join_plain by (try assumption; apply lacks_startswith, Hleaf).
  rewrite <- app_assoc. reflexivity.
Qed.


Lemma unnamed_output_lands_in_output_dir_witness :
  Improved.named (Some "") = false
  /\ is_uuid_hex (uuid4_hex Demo.platform (uuid_count Demo.shared_inbox)) = true
  /\ lacks "/" "notes_3c6ef35f.md" = true
  /\ log (snd (Improved.convert_file_from_path Demo.platform "/shared/inbox/notes.txt"
                 (Some "") Demo.shared_inbox))
     = [EvConvert (MarkItDown false) "/shared/inbox/notes.txt";
        EvWrite "/tmp/mcp_converter_q8x2v1nd/outputs/notes_3c6ef35f.md"].
Proof.
  do 3 (split; [reflexivity|]).
  assert (Hsize : Z.of_nat (length (data (Demo.file "plain notes" 1699990500)))
                  <= Improved.MAX_FILE_SIZE) by (vm_compute; discriminate).
  exact (proj2 (unnamed_output_lands_in_output_dir Demo.platform Demo.shared_inbox
                  "/shared/inbox/notes.txt" (Some "")
                  (Demo.file "plain notes" 1699990500) "plain notes"
                  eq_refl eq_refl eq_refl eq_refl Hsize eq_refl eq_refl eq_refl)).
Defined.

(** X7 — an output name that starts with a slash is not confined to the
    output directory: [os.path.join] drops [OUTPUT_DIR], and the output
    is written at the output name itself followed by an underscore,
    eight hex digits and [.md]. *)
Theorem absolute_output_name_is_the_output_location
    (P : Platform) (w : World) (file_path hint : string)
    (f : File) (text : string)
    (Hroot : Improved.in_allowed_roots w file_path = true)
    (Hfile : files w !! file_path = Some f)
    (Hread : readable f = true)
    (Hext : Improved.accepted (OsPath.basename file_path) = true)
    (Hsize : Z.of_nat (length (data f)) <= Improved.MAX_FILE_SIZE)
    (Hconv : backend_convert P (MarkItDown false) file_path (data f) = Ret text)
    (Habs : startswith "/" hint = true) :
  log (snd (Improved.convert_file_from_path P file_path (Some hint) w))
  = log w ++ [EvConvert (MarkItDown false) file_path;
              EvWrite (hint +:+ "_" +:+ take 8 (uuid4_hex P (uuid_count w)) +:+ ".md")].
Proof.
  rewrite (from_path_run P w file_path (Some hint) f Hroot Hfile Hread Hext Hsize).
  rewrite Hconv. world_simpl. unfold Improved.output_path, Improved.named.
  replace (truthy hint) with true by (destruct hint; [discriminate|reflexivity]).
  cbn [default]. unfold OsPath.join.
  rewrite (startswith_app_l "/" hint _ Habs).
  rewrite <- app_assoc. reflexivity.
Qed.

Lemma absolute_output_name_is_the_output_location_witness :
  startswith "/" "/etc/cron.d/job" = true
  /\ log (snd (Improved.convert_file_from_path Demo.platform "/shared/inbox/notes.txt"
                 (Some "/etc/cron.d/job") Demo.shared_inbox))
     = [EvConvert (MarkItDown false) "/shared/inbox/notes.txt";
        EvWrite "/etc/cron.d/job_3c6ef35f.md"].
Proof.
  split; [reflexivity|].
  assert (Hsize : Z.of_nat (length (data (Demo.file "plain notes" 1699990500)))
                  <= Improved.MAX_FILE_SIZE) by (vm_compute; discriminate).
  exact (absolute_output_name_is_the_output_location Demo.platform Demo.shared_inbox
           "/shared/inbox/notes.txt" "/etc/cron.d/job"
           (Demo.file "plain notes" 1699990500) "plain notes"
           eq_refl eq_refl eq_refl eq_refl Hsize eq_refl eq_refl).
Defined.

(** ** [improved_mcp_server.py]: the sweep, whatever the artifacts *)

Section SweepFacts.
Local Arguments String.append : simpl nomatch.
Variable P : Platform.
Import Improved.

Lemma walk_files_listed w top p :
  p ∈ filter (fun k => startswith (if endswith_char "/" top then top else top +:+ "/") k = true)
        (map fst (map_to_list (files w)))
  -> is_Some (files w !! p).
Proof.
  intros [_ Hp]%list_elem_of_filter.
  apply list_elem_of_In, in_map_iff in Hp as ([k f] & <- & Hin).
  apply list_elem_of_In, elem_of_map_to_list in Hin. eauto.
Qed.

End SweepFacts.


(** X8 — as soon as one regular file lies below the output directory,
    [cleanup_old_files] removes nothing and reports a failure: the first
    age test raises on [os.time], the handler returns the message, and
    the world is handed back unchanged. *)
Theorem sweep_with_an_artifact_reports_failure
    (P : Platform) (w : World) (p : string) (f : File)
    (Hfile : files w !! p = Some f)
    (Hunder : startswith (Improved.OUTPUT_DIR P +:+ "/") p = true) :
  Improved.cleanup_old_files P w
  = (Ret (Improved.CROSS +:+ " Cleanup failed: "
            +:+ "module 'os' has no attribute 'time'"), w).
Proof.
  unfold Improved.cleanup_old_files, Improved.os_time_time. run_steps.
  destruct (OUTPUT_DIR_plain P) as [_ He]. rewrite He.
  pose proof (walk_files_listed w (Improved.OUTPUT_DIR P)) as Hall. rewrite He in Hall.
  match goal with |- context [for_each ?l _ _] => set (found := l) in * end.
  assert (Hin : p ∈ found).
  { apply list_elem_of_filter. split; [exact Hunder|].
    apply list_elem_of_In, in_map_iff. exists (p, f). split; [reflexivity|].
    apply list_elem_of_In, elem_of_map_to_list. exact Hfile. }
  clearbody found. destruct found as [|q rest]; [inversion Hin|].
  cbn [for_each]. run_steps.
  destruct (Hall q) as [g Hg]; [left|].
  rewrite Hg. reflexivity.
Qed.

Lemma sweep_with_an_artifact_reports_failure_witness :
  files Demo.three_artifacts !! "/tmp/mcp_converter_q8x2v1nd/outputs/c_33333333.md"
    = Some (Demo.file "c" (1700000000 - 120 * 60))
  /\ startswith (Improved.OUTPUT_DIR Demo.platform +:+ "/")
       "/tmp/mcp_converter_q8x2v1nd/outputs/c_33333333.md" = true
  /\ Improved.cleanup_old_files Demo.platform Demo.three_artifacts
     = (Ret (Improved.CROSS +:+ " Cleanup failed: "
               +:+ "module 'os' has no attribute 'time'"), Demo.three_artifacts).
Proof.
  do 2 (split; [reflexivity|]).
  exact (sweep_with_an_artifact_reports_failure Demo.platform Demo.three_artifacts
           "/tmp/mcp_converter_q8x2v1nd/outputs/c_33333333.md"
           (Demo.file "c" (1700000000 - 120 * 60)) eq_refl eq_refl).
Defined.

(** ** [improved_mcp_server.py]: the listing of formats and the shutdown *)

Section ListingFacts.
Local Arguments String.append : simpl nomatch.

Lemma sorted_permutation (l1 l2 : list string) : l1 ≡ₚ l2 -> sorted l1 = sorted l2.
Proof.
  intros Hp. unfold sorted. apply (Sorted_unique String.le).
  - apply Sorted_merge_sort; apply _.
  - apply Sorted_merge_sort; apply _.
  - rewrite !merge_sort_Permutation. exact Hp.
Qed.

Lemma rmtree_lookup w top p :
  top ∈ dirs w ->
  rmtree top w = (Ret tt, snd (rmtree top w))
  /\ files (snd (rmtree top w)) !! p
     = (if below top p then None else files w !! p)
  /\ (p ∈ dirs (snd (rmtree top w)) <-> below top p = false /\ p ∈ dirs w).
Proof.
  intros Hd. unfold rmtree. rewrite bool_decide_eq_true_2 by exact Hd. cbn [snd files dirs].
  split; [reflexivity|]. split.
  - destruct (below top p) eqn:E.
    + apply map_lookup_filter_None. right. intros f _. cbn [fst]. rewrite E. discriminate.
    + destruct (files w !! p) as [f|] eqn:Hf.
      * apply map_lookup_filter_Some. split; [exact Hf|exact E].
      * apply map_lookup_filter_None. left. exact Hf.
  - rewrite elem_of_filter. tauto.
Qed.

End ListingFacts.

Section ShutdownFacts.
Local Arguments String.append : simpl nomatch.
Variable P : Platform.


End ShutdownFacts.

(** X9 — whatever order the process iterates its set of extensions
    in, [list_supported_formats] returns the same line: the seven
    extensions in alphabetical order, separated by a comma and a
    space. *)
Theorem supported_formats_listing_is_fixed
    (P : Platform)
    (Hperm : set_iter P Improved.ALLOWED_EXTENSIONS ≡ₚ Improved.ALLOWED_EXTENSIONS) :
  Improved.list_supported_formats P
  = "Supported formats: .doc, .docx, .html, .pdf, .pptx, .txt, .xlsx".
Proof.
  unfold Improved.list_supported_formats.
  rewrite (sorted_permutation _ _ Hperm). vm_compute. reflexivity.
Qed.

Lemma supported_formats_listing_is_fixed_witness :
  set_iter Demo.shuffled_platform Improved.ALLOWED_EXTENSIONS
    = [".pptx"; ".xlsx"; ".html"; ".txt"; ".doc"; ".docx"; ".pdf"]
  /\ Improved.list_supported_formats Demo.shuffled_platform
     = "Supported formats: .doc, .docx, .html, .pdf, .pptx, .txt, .xlsx".
Proof.
  split; [reflexivity|].
  apply (supported_formats_listing_is_fixed Demo.shuffled_platform).
  apply Permutation_sym, Permutation_rev.
Defined.

(** X10 — when the temporary base is a directory, [cleanup_temp_files]
    returns normally and takes the whole tree away: afterwards no file
    and no directory at or below the base is left, and everything
    outside it is as before. *)
Theorem shutdown_cleanup_empties_the_temp_tree
    (P : Platform) (w : World) (p : string)
    (Hdir : Improved.TEMP_BASE P ∈ dirs w) :
  fst (Improved.cleanup_temp_files P w) = Ret tt
  /\ files (snd (Improved.cleanup_temp_files P w)) !! p
     = (if below (Improved.TEMP_BASE P) p then None else files w !! p)
  /\ (p ∈ dirs (snd (Improved.cleanup_temp_files P w))
      <-> below (Improved.TEMP_BASE P) p = false /\ p ∈ dirs w).
Proof.
  destruct (rmtree_lookup w (Improved.TEMP_BASE P) p Hdir) as (Hrun & Hfiles & Hdirs).
  unfold Improved.cleanup_temp_files, exists_. unfold_run.
  unfold present. rewrite (bool_decide_eq_true_2 (_ ∈ dirs w)) by exact Hdir.
  rewrite orb_true_r. rewrite Hrun. cbn [fst snd]. auto.
Qed.

Lemma shutdown_cleanup_empties_the_temp_tree_witness :
  Improved.TEMP_BASE Demo.platform ∈ dirs Demo.three_artifacts
  /\ is_Some (files Demo.three_artifacts
               !! "/tmp/mcp_converter_q8x2v1nd/outputs/a_11111111.md")
  /\ files (snd (Improved.cleanup_temp_files Demo.platform Demo.three_artifacts))
       !! "/tmp/mcp_converter_q8x2v1nd/outputs/a_11111111.md" = None.
Proof.
  assert (Hdir : Improved.TEMP_BASE Demo.platform ∈ dirs Demo.three_artifacts)
    by (apply (bool_decide_unpack _); vm_compute; exact I).
  split; [exact Hdir|]. split; [vm_compute; eauto|].
  destruct (shutdown_cleanup_empties_the_temp_tree Demo.platform Demo.three_artifacts
              "/tmp/mcp_converter_q8x2v1nd/outputs/a_11111111.md" Hdir)
    as (_ & Hfiles & _).
  rewrite Hfiles. reflexivity.
Defined.

(** X11 — [cleanup_temp_files] never raises: a failure of the removal is
    swallowed by its handler, and unless the temporary base is a
    directory the world is handed back untouched. *)
Theorem shutdown_cleanup_never_raises (P : Platform) (w : World) :
  fst (Improved.cleanup_temp_files P w) = Ret tt
  /\ (snd (Improved.cleanup_temp_files P w) = w \/ Improved.TEMP_BASE P ∈ dirs w).
Proof.
  unfold Improved.cleanup_temp_files, exists_, rmtree. unfold_run.
  destruct (present w (Improved.TEMP_BASE P)); cbv beta iota; [|auto].
  destruct (bool_decide (Improved.TEMP_BASE P ∈ dirs w)) eqn:E; cbv beta iota.
  - apply bool_decide_eq_true in E. auto.
  - destruct (bool_decide (is_Some (files w !! Improved.TEMP_BASE P)));
      cbv beta iota; auto.
Qed.



(** ** [server.py]: where the two tools read and write *)

Section RoundTrip.
Local Arguments String.append : simpl nomatch.
Import Pathlib.

Lemma startswith_char c a s : startswith (String c "") (String a s) = Ascii.eqb c a.
Proof. cbn [startswith]. destruct (Ascii.eqb c a); reflexivity. Qed.

Lemma parts_wf s :
  Forall (fun x => lacks "/" x = true /\ keep_part x = true)
    (filter keep_part (split "/" s)).
Proof.
  apply Forall_forall. intros x [Hk Hx]%list_elem_of_filter. split.
  - pose proof (split_elements_lack "/" s) as H. rewrite Forall_forall in H. auto.
  - destruct (keep_part x); [reflexivity|destruct Hk].
Qed.

Lemma Path_wf s : wf (Path s).
Proof.
  split; [|rewrite parts_Path; apply parts_wf].
  unfold Path, splitroot. destruct (startswith "/" s); [|auto].
  destruct (len s - len (lstrip "/" s) =? 2); cbn [root]; auto.
Qed.

Lemma div_wf p s : wf p -> wf (div p s).
Proof.
  intros [Hr Hp]. unfold div. destruct (truthy (root (Path s))); [apply Path_wf|].
  split; [exact Hr|]. cbn [parts]. apply Forall_app. split; [exact Hp|].
  apply Path_wf.
Qed.

Lemma filter_keep_all l :
  Forall (fun x => lacks "/" x = true /\ keep_part x = true) l ->
  filter keep_part l = l.
Proof.
  induction 1 as [|x l [_ Hk] _ IH]; [reflexivity|].
  rewrite filter_cons_True by (rewrite Hk; exact I). rewrite IH. reflexivity.
Qed.

Lemma split_join l :
  Forall (fun x => lacks "/" x = true /\ keep_part x = true) l -> l <> [] ->
  split "/" (Py.join "/" l) = l.
Proof.
  induction 1 as [|x l [Hx _] Hl IH]; [congruence|]. intros _.
  destruct l as [|y l]; [apply split_lacks, Hx|].
  change (Py.join "/" (x :: y :: l)) with (x +:+ String "/" (Py.join "/" (y :: l))).
  rewrite split_app, (split_lacks "/" x Hx), IH by discriminate. reflexivity.
Qed.

Lemma join_not_rooted l :
  Forall (fun x => lacks "/" x = true /\ keep_part x = true) l ->
  startswith "/" (Py.join "/" l) = false.
Proof.
  intros H. destruct H as [|x l [Hx Hk] _]; [reflexivity|].
  assert (Hs : forall t, startswith "/" (x +:+ t) = false).
  { intros t. destruct x as [|a x]; [discriminate|].
    change (String a x +:+ t) with (String a (x +:+ t)).
    rewrite startswith_char. cbn [lacks] in Hx.
    apply andb_true_iff in Hx as [Ha _]. rewrite Ascii.eqb_sym.
    destruct (Ascii.eqb a "/"); [discriminate|reflexivity]. }
  destruct l as [|y l]; [rewrite <- (app_nil_r_s x); apply Hs|apply Hs].
Qed.

Lemma lstrip_not_rooted s : startswith "/" s = false -> lstrip "/" s = s.
Proof.
  destruct s as [|a s]; [reflexivity|]. rewrite startswith_char.
  cbn [lstrip]. rewrite (Ascii.eqb_sym a "/").
  destruct (Ascii.eqb "/" a); [discriminate|reflexivity].
Qed.

Lemma parts_of_join l :
  Forall (fun x => lacks "/" x = true /\ keep_part x = true) l ->
  filter keep_part (split "/" (Py.join "/" l)) = l.
Proof.
  intros H. destruct l as [|x l]; [reflexivity|].
  rewrite split_join by (try exact H; discriminate). apply filter_keep_all, H.
Qed.

Lemma Path_str p : wf p -> Path (str p) = p.
Proof.
  destruct p as [r ps]. intros [Hr Hp]. cbn [root parts] in *.
  pose proof (join_not_rooted ps Hp) as Hj.
  pose proof (parts_of_join ps Hp) as Hparts.
  unfold str. cbn [root parts].
  destruct Hr as [->|[->| ->]]; cbn [truthy].
  - destruct ps as [|x ps]; [reflexivity|].
    unfold Path, splitroot. rewrite Hj, Hparts. reflexivity.
  - unfold Path, splitroot.
    change (startswith "/" ("/" +:+ Py.join "/" ps)) with true. cbv iota.
    change (lstrip "/" ("/" +:+ Py.join "/" ps)) with (lstrip "/" (Py.join "/" ps)).
    rewrite (lstrip_not_rooted _ Hj).
    replace (len ("/" +:+ Py.join "/" ps) - len (Py.join "/" ps) =? 2) with false;
      [cbv beta iota; rewrite Hparts; reflexivity|].
    symmetry. apply Z.eqb_neq. unfold len. rewrite length_app_s. simpl. lia.
  - unfold Path, splitroot.
    change (startswith "/" ("//" +:+ Py.join "/" ps)) with true. cbv iota.
    change (lstrip "/" ("//" +:+ Py.join "/" ps)) with (lstrip "/" (Py.join "/" ps)).
    rewrite (lstrip_not_rooted _ Hj).
    replace (len ("//" +:+ Py.join "/" ps) - len (Py.join "/" ps) =? 2) with true;
      [cbv beta iota; rewrite Hparts; reflexivity|].
    symmetry. apply Z.eqb_eq. unfold len. rewrite length_app_s. simpl. lia.
Qed.

End RoundTrip.

Section SuffixFacts.
Local Arguments String.append : simpl nomatch.
Import Pathlib.

Lemma take_drop_s n s : take n s +:+ drop n s = s.
Proof.
  revert s. induction n as [|n IH]; intros [|a s]; try reflexivity.
  cbn [take drop]. change (String a (take n s) +:+ drop n s)
    with (String a (take n s +:+ drop n s)). rewrite IH. reflexivity.
Qed.

Lemma length_drop n s : String.length (drop n s) = (String.length s - n)%nat.
Proof.
  revert s. induction n as [|n IH]; intros [|a s]; cbn [drop String.length];
    try reflexivity; try lia. apply IH.
Qed.

Lemma name_stem_suffix p : name p = stem p +:+ suffix p.
Proof.
  unfold stem, suffix. destruct ((0 <? _) && _).
  - unfold slice_to, slice_from. symmetry. apply take_drop_s.
  - symmetry. apply app_nil_r_s.
Qed.

Lemma suffix_truthy p :
  truthy (suffix p)
  = (0 <? rfind "." (name p)) && (rfind "." (name p) <? len (name p) - 1).
Proof.
  unfold suffix. destruct ((0 <? _) && _) eqn:E; [|reflexivity].
  apply andb_true_iff in E as [H1%Z.ltb_lt H2%Z.ltb_lt].
  unfold slice_from, len in *.
  pose proof (length_drop (Z.to_nat (rfind "." (name p))) (name p)) as Hl.
  destruct (drop _ _); [|reflexivity]. cbn [String.length] in Hl. lia.
Qed.

Lemma with_suffix_stem p :
  truthy (name p) = true ->
  with_suffix ".md" p
  = Some {| root := root p; parts := removelast (parts p) ++ [stem p +:+ ".md"] |}.
Proof.
  intros Hn. unfold with_suffix. rewrite Hn. cbn [negb]. rewrite suffix_truthy.
  unfold stem, suffix.
  destruct ((0 <? _) && _) eqn:E; cbn [negb]; [|reflexivity].
  apply andb_true_iff in E as [H1%Z.ltb_lt H2%Z.ltb_lt].
  unfold slice_to, slice_from, len in *. rewrite length_drop.
  replace (Z.to_nat (Z.of_nat (String.length (name p))
                     - Z.of_nat (String.length (name p)
                                 - Z.to_nat (rfind "." (name p)))))
    with (Z.to_nat (rfind "." (name p))) by lia.
  reflexivity.
Qed.

Lemma parts_removelast_name p :
  truthy (name p) = true -> removelast (parts p) ++ [name p] = parts p.
Proof.
  unfold name. destruct (last (parts p)) as [n|] eqn:E; [|discriminate].
  intros _. destruct (parts p) as [|x l] using rev_ind; [discriminate|].
  rewrite last_snoc in E. injection E as ->. rewrite removelast_last. reflexivity.
Qed.

Lemma with_suffix_md_same p : suffix p = ".md" -> with_suffix ".md" p = Some p.
Proof.
  intros Hs. pose proof (name_stem_suffix p) as Hn. rewrite Hs in Hn.
  assert (Ht : truthy (name p) = true)
    by (rewrite Hn; apply truthy_app_r; reflexivity).
  rewrite (with_suffix_stem p Ht), <- Hn, (parts_removelast_name p Ht).
  destruct p; reflexivity.
Qed.






Lemma div_rooted d s : startswith "/" s = true -> div d s = Path s.
Proof.
  intros H. unfold div.
  replace (truthy (root (Path s))) with true; [reflexivity|].
  unfold Path, splitroot. rewrite H. destruct (_ =? 2); reflexivity.
Qed.

End SuffixFacts.

Section ServerRuns.
Local Arguments String.append : simpl nomatch.
Variable P : Platform.
Import Pathlib.

Lemma file_run w file_path f :
  files w !! str (Path file_path) = Some f ->
  Server.convert_file_to_markdown P file_path w
  = let ip := Path file_path in
    let b := if String.eqb (lower (suffix ip)) ".pdf" then DocumentConverter true
             else MarkItDown false in
    let w1 := emit (EvConvert b (str ip)) w in
    match backend_convert P b (str ip) (data f) with
    | Raise e => (Raise e, w1)
    | Ret md_text =>
        match with_suffix ".md" ip with
        | None =>
            (Raise (Exn "ValueError"
                      ("PosixPath('" +:+ str ip +:+ "') has an empty name")), w1)
        | Some out =>
            (Ret ("File converted successfully. Markdown saved to: "
                    +:+ str out +:+ NL +:+ NL +:+ "Content:" +:+ NL +:+ md_text),
             emit (EvWrite (str out))
               (with_files
                  <[str out := {| data := String.list_byte_of_string md_text;
                                  ctime := clock w; readable := true |}]> w1))
        end
    end.
Proof.
  intros Hf. cbv zeta. unfold Server.convert_file_to_markdown.
  set (ip := Path file_path) in *. run_steps.
  rewrite (present_file w (str ip) f Hf). cbn [negb]. cbv beta iota.
  destruct (String.eqb (lower (suffix ip)) ".pdf"); cbv beta iota; world_simpl;
    rewrite Hf;
    (destruct (backend_convert P _ (str ip) (data f)) as [md|e]; cbv beta iota;
     [|reflexivity]);
    (destruct (with_suffix ".md" ip) as [out|]; cbv beta iota; reflexivity).
Qed.

Lemma makedirs_free w p :
  files w !! p = None ->
  makedirs p w = (Ret tt, snd (makedirs p w))
  /\ clock (snd (makedirs p w)) = clock w
  /\ files (snd (makedirs p w)) = files w.
Proof.
  intros H. unfold makedirs. rewrite H.
  rewrite (bool_decide_eq_false_2 (is_Some None)) by (intros [? ?]; discriminate).
  destruct (bool_decide (p ∈ dirs w)); auto.
Qed.

(** The bytes [convert_file_content_to_markdown] stages: the decoded
    payload, or the payload's own text when it does not decode *)
Lemma content_run w content filename output_dir :
  files w !! str (Path output_dir) = None ->
  Server.convert_file_content_to_markdown P content filename output_dir w
  = let ip := div (Path output_dir) filename in
    let staged := str ip in
    let bytes := match b64decode P content with
                 | Ret decoded => decoded
                 | Raise _ => String.list_byte_of_string content
                 end in
    let w1 := snd (makedirs (str (Path output_dir)) w) in
    let w2 := emit (EvWrite staged)
                (with_files <[staged := {| data := bytes; ctime := clock w;
                                           readable := true |}]> w1) in
    let b := if String.eqb (lower (suffix ip)) ".pdf" then DocumentConverter true
             else MarkItDown false in
    let w3 := emit (EvConvert b staged) w2 in
    match backend_convert P b staged bytes with
    | Raise e => (Raise e, w3)
    | Ret md_text =>
        match with_suffix ".md" ip with
        | None =>
            (Raise (Exn "ValueError"
                      ("PosixPath('" +:+ staged +:+ "') has an empty name")), w3)
        | Some out =>
            (Ret ("File converted successfully. Markdown saved to: "
                    +:+ str out +:+ NL +:+ NL +:+ "Content:" +:+ NL +:+ md_text),
             emit (EvRemove staged)
               (with_files (delete staged)
                  (emit (EvWrite (str out))
                     (with_files
                        <[str out := {| data := String.list_byte_of_string md_text;
                                        ctime := clock w; readable := true |}]> w3))))
        end
    end.
Proof.
  intros Hfree. cbv zeta. unfold Server.convert_file_content_to_markdown.
  set (ip := div (Path output_dir) filename).
  assert (Hip : Path (str ip) = ip) by (apply Path_str, div_wf, Path_wf).
  set (od := str (Path output_dir)) in *.
  destruct (makedirs_free w od Hfree) as (Hmk & Hclock & _).
  unfold bind at 1.
  rewrite Hmk. clear Hmk. cbv beta iota.
  set (w1 := snd (makedirs od w)) in *. clearbody w1.
  set (bytes := match b64decode P content with
                | Ret decoded => decoded
                | Raise _ => String.list_byte_of_string content
                end).
  set (w2 := emit (EvWrite (str ip))
               (with_files <[str ip := {| data := bytes; ctime := clock w;
                                          readable := true |}]> w1)).
  assert (Hstage :
    try_except
      (decoded_content <- call (b64decode P content) ;;
       write_bytes (str ip) decoded_content)
      (fun _ => write_text (str ip) content) w1 = (Ret tt, w2)).
  { unfold w2, bytes. run_steps.
    destruct (b64decode P content); cbv beta iota; world_simpl; rewrite Hclock;
      reflexivity. }
  unfold bind at 1. rewrite Hstage. cbv beta iota.
  assert (Hf : files w2 !! str (Path (str ip))
               = Some {| data := bytes; ctime := clock w; readable := true |}).
  { rewrite Hip. unfold w2. world_simpl. apply lookup_insert_eq. }
  unfold bind at 1. rewrite (file_run w2 (str ip) _ Hf). cbv zeta. rewrite Hip.
  cbn [data].
  destruct (backend_convert P _ (str ip) bytes) as [md|e]; [|reflexivity].
  destruct (with_suffix ".md" ip) as [out|]; [|reflexivity].
  cbv beta iota. run_steps.
  assert (Hc2 : clock w2 = clock w) by (unfold w2; world_simpl; exact Hclock).
  rewrite Hc2.
  destruct (decide (str out = str ip)) as [Heq|Hne].
  - rewrite Heq, lookup_insert_eq. reflexivity.
  - rewrite lookup_insert_ne by exact Hne.
    unfold w2 at 1. world_simpl. rewrite lookup_insert_eq. reflexivity.
Qed.

End ServerRuns.





(** X15 — a file name that starts with a slash is not confined to the
    output directory: [output_path / filename] is the file name's own
    path, and that is where [convert_file_content_to_markdown] writes the
    payload, whatever the output directory. *)
Theorem absolute_filename_is_staged_at_itself
    (P : Platform) (w : World) (content filename output_dir : string)
    (Hfree : files w !! Pathlib.str (Pathlib.Path output_dir) = None)
    (Habs : startswith "/" filename = true) :
  exists rest,
    log (snd (Server.convert_file_content_to_markdown P content filename output_dir w))
    = log (snd (makedirs (Pathlib.str (Pathlib.Path output_dir)) w))
        ++ EvWrite (Pathlib.str (Pathlib.Path filename)) :: rest.
Proof.
  rewrite (content_run P w content filename output_dir Hfree). cbv zeta.
  rewrite (div_rooted _ filename Habs).
  destruct (backend_convert P _ _ _) as [md|e];
    [destruct (Pathlib.with_suffix ".md" (Pathlib.Path filename)) as [out|]|];
    world_simpl; rewrite <- ?app_assoc; eexists; reflexivity.
Qed.

Lemma absolute_filename_is_staged_at_itself_witness :
  files Demo.fresh !! Pathlib.str (Pathlib.Path "/tmp") = None
  /\ startswith "/" "/etc/motd.docx" = true
  /\ exists rest,
       log (snd (Server.convert_file_content_to_markdown Demo.platform "aGVsbG8="
                   "/etc/motd.docx" "/tmp" Demo.fresh))
       = log (snd (makedirs (Pathlib.str (Pathlib.Path "/tmp")) Demo.fresh))
           ++ EvWrite "/etc/motd.docx" :: rest.
Proof.
  do 2 (split; [reflexivity|]).
  exact (absolute_filename_is_staged_at_itself Demo.platform Demo.fresh "aGVsbG8="
           "/etc/motd.docx" "/tmp" eq_refl eq_refl).
Defined.

(** X16 — [convert_file_to_markdown] on a file whose name already ends in
    [.md] writes the Markdown over that very file: the output path is the
    input path, and the original content is replaced by the
    conversion. *)
Theorem markdown_input_is_overwritten_in_place
    (P : Platform) (w : World) (file_path md_text : string) (f : File)
    (Hfile : files w !! Pathlib.str (Pathlib.Path file_path) = Some f)
    (Hsuffix : Pathlib.suffix (Pathlib.Path file_path) = ".md")
    (Hconv : backend_convert P (MarkItDown false)
               (Pathlib.str (Pathlib.Path file_path)) (data f) = Ret md_text) :
  let input := Pathlib.str (Pathlib.Path file_path) in
  let run := Server.convert_file_to_markdown P file_path w in
  fst run = Ret ("File converted successfully. Markdown saved to: "
                   +:+ input +:+ NL +:+ NL +:+ "Content:" +:+ NL +:+ md_text)
  /\ files (snd run)
     = <[input := {| data := String.list_byte_of_string md_text; ctime := clock w;
                     readable := true |}]> (files w).
Proof.
  cbv zeta. rewrite (file_run P w file_path f Hfile). cbv zeta.
  rewrite Hsuffix. change (String.eqb (lower ".md") ".pdf") with false. cbv iota.
  rewrite Hconv, (with_suffix_md_same _ Hsuffix). world_simpl.
  split; reflexivity.
Qed.

Lemma markdown_input_is_overwritten_in_place_witness :
  let w := with_files <["/srv/app/README.md" := Demo.file "# Title <b>x</b>" 1699000000]>
             Demo.fresh in
  files w !! Pathlib.str (Pathlib.Path "/srv/app/README.md")
    = Some (Demo.file "# Title <b>x</b>" 1699000000)
  /\ Pathlib.suffix (Pathlib.Path "/srv/app/README.md") = ".md"
  /\ files (snd (Server.convert_file_to_markdown Demo.platform "/srv/app/README.md" w))
     = <["/srv/app/README.md" := Demo.file "# Title <b>x</b>" 1700000000]> (files w).
Proof.
  cbv zeta. do 2 (split; [reflexivity|]).
  exact (proj2 (markdown_input_is_overwritten_in_place Demo.platform
                  (with_files <["/srv/app/README.md" :=
                                  Demo.file "# Title <b>x</b>" 1699000000]> Demo.fresh)
                  "/srv/app/README.md" "# Title <b>x</b>"
                  (Demo.file "# Title <b>x</b>" 1699000000) eq_refl eq_refl eq_refl)).
Defined.

(** X17 — [convert_file_to_markdown] touches at most one path: whatever
    the input and however the call ends, every file other than the
    input's sibling with the [.md] suffix is as it was, and so is every
    directory. *)
Theorem path_tool_touches_only_the_markdown_sibling
    (P : Platform) (w : World) (file_path p : string)
    (Hother : forall out,
        Pathlib.with_suffix ".md" (Pathlib.Path file_path) = Some out ->
        p <> Pathlib.str out) :
  files (snd (Server.convert_file_to_markdown P file_path w)) !! p = files w !! p
  /\ dirs (snd (Server.convert_file_to_markdown P file_path w)) = dirs w.
Proof.
  unfold Server.convert_file_to_markdown. run_steps.
  destruct (present w _); cbn [negb]; cbv beta iota; [|auto].
  destruct (String.eqb _ ".pdf"); cbv beta iota; world_simpl;
    (destruct (files w !! Pathlib.str (Pathlib.Path file_path)) as [f|];
     cbv beta iota; [|auto]);
    (destruct (backend_convert P _ _ (data f)) as [md|e]; cbv beta iota; [|auto]);
    (destruct (Pathlib.with_suffix ".md" (Pathlib.Path file_path)) as [out|] eqn:Ho;
     cbv beta iota; world_simpl; [|auto]);
    (split; [|reflexivity]); apply lookup_insert_ne; intros Heq;
    exact (Hother out eq_refl (eq_sym Heq)).
Qed.

Lemma path_tool_touches_only_the_markdown_sibling_witness :
  files (snd (Server.convert_file_to_markdown Demo.platform "/srv/app/docs/readme.txt"
                Demo.repo)) !! "/srv/app/docs/readme.txt"
  = Some (Demo.file "hello" 1699000000)
  /\ is_Some (files (snd (Server.convert_file_to_markdown Demo.platform
                            "/srv/app/docs/readme.txt" Demo.repo))
                !! "/srv/app/docs/readme.md").
Proof.
  split.
  - refine (eq_trans
              (proj1 (path_tool_touches_only_the_markdown_sibling Demo.platform
                        Demo.repo "/srv/app/docs/readme.txt"
                        "/srv/app/docs/readme.txt" _)) eq_refl).
    intros out [= <-]. vm_compute. discriminate.
  - vm_compute. eauto.
Defined.

(** ** [mcp_test.py] *)

Ltac tmp_steps Ht :=
  cbv beta iota; world_simpl; rewrite ?Ht; cbv beta iota; world_simpl;
  unfold present; world_simpl; rewrite ?lookup_insert_eq;
  rewrite ?(bool_decide_eq_true_2 (is_Some (Some _))) by eauto;
  cbn [orb]; cbv beta iota; world_simpl; rewrite ?lookup_insert_eq;
  cbv beta iota; world_simpl.

Section McpTestRuns.
Local Arguments String.append : simpl nomatch.
Variable P : Platform.
Variable mkstemp : World -> string -> string.

Lemma tool_run w content filename bytes :
  b64decode P content = Ret bytes ->
  truthy (mkstemp w (snd (OsPath.splitext filename))) = true ->
  McpTest.convert_file_from_base64 P mkstemp content filename w
  = let tmp := mkstemp w (snd (OsPath.splitext filename)) in
    let w1 := emit (EvWrite tmp)
                (with_files <[tmp := {| data := []; ctime := clock w;
                                        readable := true |}]> w) in
    let w2 := emit (EvWrite tmp)
                (with_files <[tmp := {| data := bytes; ctime := clock w;
                                        readable := true |}]> w1) in
    let w3 := emit (EvConvert (MarkItDown true) tmp) w2 in
    (match backend_convert P (MarkItDown true) tmp bytes with
     | Ret md => Ret ("# Converted: " +:+ filename +:+ NL +:+ NL +:+ md)
     | Raise e =>
         Raise (Exn "Exception"
                  ("Conversion error for " +:+ filename +:+ ": " +:+ exn_str e))
     end, emit (EvRemove tmp) (with_files (delete tmp) w3)).
Proof.
  intros Hdec Ht. cbv zeta.
  unfold McpTest.convert_file_from_base64, McpTest.stage_tmp,
    McpTest.NamedTemporaryFile, McpTest.remove_tmp_path, McpTest.convert_file_to_md.
  run_steps. rewrite Hdec. cbv beta iota. world_simpl. rewrite lookup_insert_eq.
  cbn [data]. set (tmp := mkstemp w _) in *.
  destruct (backend_convert P (MarkItDown true) tmp bytes) as [md|e];
    tmp_steps Ht; reflexivity.
Qed.


End McpTestRuns.

(** X18 — [convert_file_from_path] of [mcp_test.py] only reads: however
    the call ends, every file and directory is as before.  It returns
    the backend's text under a heading with the file's base name, raises
    [FileNotFoundError] with the path when nothing is there, and raises
    any failure of the conversion as an [Exception] whose message starts
    with [Conversion error for] and the base name. *)
Theorem local_path_conversion_only_reads
    (P : Platform) (w : World) (file_path : string) :
  let run := McpTest.convert_file_from_path P file_path w in
  let filename := OsPath.basename file_path in
  files (snd run) = files w /\ dirs (snd run) = dirs w
  /\ match fst run with
     | Ret answer =>
         exists f md,
           files w !! file_path = Some f
           /\ backend_convert P (MarkItDown true) file_path (data f) = Ret md
           /\ answer = "# Converted: " +:+ filename +:+ NL +:+ NL +:+ md
     | Raise e =>
         (present w file_path = false
          /\ e = Exn "FileNotFoundError" ("File not found: " +:+ file_path))
         \/ (present w file_path = true
             /\ exists e0, e = Exn "Exception"
                                 ("Conversion error for " +:+ filename +:+ ": "
                                    +:+ exn_str e0))
     end.
Proof.
  cbv zeta. unfold McpTest.convert_file_from_path, McpTest.convert_file_to_md.
  run_steps. destruct (present w file_path) eqn:Hp; cbn [negb]; cbv beta iota.
  - destruct (files w !! file_path) as [f|] eqn:Hf; cbv beta iota; world_simpl.
    + destruct (backend_convert P (MarkItDown true) file_path (data f)) as [md|e]
        eqn:Hc; cbv beta iota; world_simpl.
      * do 2 (split; [reflexivity|]). exists f, md. auto.
      * do 2 (split; [reflexivity|]). right. split; [reflexivity|]. eauto.
    + do 2 (split; [reflexivity|]). right. split; [reflexivity|]. eauto.
  - do 2 (split; [reflexivity|]). left. auto.
Qed.

(** X19 — [convert_file_from_base64] of [mcp_test.py] never leaves its
    temporary file behind: when [tempfile] hands out a fresh, non-empty
    name, every file and directory is as before after the call, whether
    the payload failed to decode, the backend failed, or the conversion
    succeeded. *)
Theorem temp_file_is_released_on_every_way_out
    (P : Platform) (mkstemp : World -> string -> string) (w : World)
    (content filename : string)
    (Hname : truthy (mkstemp w (snd (OsPath.splitext filename))) = true)
    (Hfresh : files w !! mkstemp w (snd (OsPath.splitext filename)) = None) :
  files (snd (McpTest.convert_file_from_base64 P mkstemp content filename w)) = files w
  /\ dirs (snd (McpTest.convert_file_from_base64 P mkstemp content filename w)) = dirs w.
Proof.
  destruct (b64decode P content) as [bytes|e] eqn:Hdec.
  - rewrite (tool_run P mkstemp w content filename bytes Hdec Hname). cbv zeta.
    world_simpl. split; [|reflexivity].
    rewrite !delete_insert_eq. apply delete_id, Hfresh.
  - unfold McpTest.convert_file_from_base64, McpTest.remove_tmp_path. run_steps.
    rewrite Hdec. split; reflexivity.
Qed.

Lemma temp_file_is_released_on_every_way_out_witness :
  Demo.mkstemp Demo.repo (snd (OsPath.splitext "report.docx")) = "/tmp/tmpac58c3e1.docx"
  /\ files Demo.repo !! "/tmp/tmpac58c3e1.docx" = None
  /\ fst (McpTest.convert_file_from_base64 Demo.platform Demo.mkstemp "aGVsbG8="
            "report.docx" Demo.repo)
     = Raise (Exn "Exception"
                "Conversion error for report.docx: File is not a zip file")
  /\ files (snd (McpTest.convert_file_from_base64 Demo.platform Demo.mkstemp "aGVsbG8="
                   "report.docx" Demo.repo)) = files Demo.repo.
Proof.
  do 3 (split; [vm_compute; reflexivity|]).
  exact (proj1 (temp_file_is_released_on_every_way_out Demo.platform Demo.mkstemp
                  Demo.repo "aGVsbG8=" "report.docx" eq_refl eq_refl)).
Defined.



(** X21 — a payload that does not decode stops both base64 operations of
    [mcp_test.py] before anything is staged, and the world is handed
    back untouched.  The tool [convert_file_from_base64] lets the
    decoder's exception through as it is; the endpoint
    [convert_base64_file] raises an [HTTPException] with status 500
    whose detail carries the decoder's message. *)
Theorem undecodable_payload_stops_before_staging
    (P : Platform) (mkstemp : World -> string -> string) (w : World)
    (content filename : string) (e : exn)
    (Hdec : b64decode P content = Raise e) :
  McpTest.convert_file_from_base64 P mkstemp content filename w = (Raise e, w)
  /\ McpTest.convert_base64_file P mkstemp content filename w
     = (Raise (McpTest.HTTPException 500 ("Conversion failed: " +:+ exn_str e)), w).
Proof.
  unfold McpTest.convert_file_from_base64, McpTest.convert_base64_file,
    McpTest.remove_tmp_path.
  run_steps. rewrite Hdec. split; reflexivity.
Qed.

Lemma undecodable_payload_stops_before_staging_witness :
  b64decode Demo.platform "a" = Raise (Demo.binascii_Error
    "Invalid base64-encoded string: number of data characters (1) cannot be 1 more than a multiple of 4")
  /\ McpTest.convert_base64_file Demo.platform Demo.mkstemp "a" "notes.txt" Demo.repo
     = (Raise (Exn "HTTPException"
                 ("500: Conversion failed: Invalid base64-encoded string: "
                    +:+ "number of data characters (1) cannot be 1 more than a multiple of 4")),
        Demo.repo).
Proof.
  split; [reflexivity|].
  exact (proj2 (undecodable_payload_stops_before_staging Demo.platform Demo.mkstemp
                  Demo.repo "a" "notes.txt" _ eq_refl)).
Defined.

(** ** [git_server.py]: what [convert_folder] leaves alone *)

Section FolderFrame.
Local Arguments String.append : simpl nomatch.
Variable P : Platform.
Import GitServer.

Lemma output_file_under folder f :
  lacks "/" f = true ->
  OsPath.join (OsPath.join folder "markdown_output")
    (fst (OsPath.splitext f) +:+ ".md")
  = (OsPath.join folder "markdown_output" +:+ "/")
      +:+ fst (OsPath.splitext f) +:+ ".md".
Proof.
  intros Hf.
  assert (Hx : lacks "/" (fst (OsPath.splitext f) +:+ ".md") = true)
    by (rewrite lacks_app, (splitext_lacks "/" f Hf); reflexivity).
  rewrite (join_under folder "markdown_output") by reflexivity.
  rewrite join_plain;
    [ | apply truthy_app_r; reflexivity
      | rewrite endswith_app by reflexivity; reflexivity
      | apply lacks_startswith, Hx ].
  rewrite !app_assoc_s. reflexivity.
Qed.

Lemma convert_entry_frame folder acc f wk :
  lacks "/" f = true ->
  exists acc' wk',
    convert_entry P folder (OsPath.join folder "markdown_output") acc f wk
    = (Ret acc', wk')
    /\ dirs wk' = dirs wk
    /\ forall p,
         startswith (OsPath.join folder "markdown_output" +:+ "/") p = false ->
         files wk' !! p = files wk !! p.
Proof.
  intros Hf. destruct acc as [processed skipped]. unfold convert_entry. run_steps.
  destruct (bool_decide (is_Some (files wk !! OsPath.join folder f))); cbv beta iota;
    [|eauto 6].
  destruct (files wk !! OsPath.join folder f) as [file|]; cbv beta iota; world_simpl;
    [|eauto 6].
  destruct (backend_convert P (MarkItDown false) _ (data file)) as [text|e];
    cbv beta iota; world_simpl; [|eauto 6].
  do 2 eexists. split; [reflexivity|]. split; [reflexivity|].
  intros p Hp. world_simpl. apply lookup_insert_ne. intros <-.
  rewrite (output_file_under folder f Hf), startswith_app in Hp. discriminate.
Qed.

Lemma folder_loop_frame folder entries :
  Forall (fun n => lacks "/" n = true) entries ->
  forall acc wk,
    exists acc' wk',
      for_each entries acc
        (convert_entry P folder (OsPath.join folder "markdown_output")) wk
      = (Ret acc', wk')
      /\ dirs wk' = dirs wk
      /\ forall p,
           startswith (OsPath.join folder "markdown_output" +:+ "/") p = false ->
           files wk' !! p = files wk !! p.
Proof.
  induction 1 as [|f rest Hf _ IH]; intros acc wk.
  - exists acc, wk. auto.
  - cbn [for_each]. unfold bind at 1.
    destruct (convert_entry_frame folder acc f wk Hf) as (acc1 & w1 & -> & Hd1 & Hf1).
    cbv beta iota.
    destruct (IH acc1 w1) as (acc2 & w2 & -> & Hd2 & Hf2).
    exists acc2, w2. split; [reflexivity|]. split; [congruence|].
    intros p Hp. rewrite (Hf2 p Hp). apply Hf1, Hp.
Qed.

End FolderFrame.

(** X22 — [convert_folder] writes only below the [markdown_output]
    directory of the folder: every file whose path does not start with
    that directory and a slash is after the call exactly as before, the
    files of the folder itself included, and no directory other than
    [markdown_output] appears or disappears. *)
Theorem folder_conversion_writes_only_below_markdown_output
    (P : Platform) (w : World) (folder_path p : string)
    (Hp : startswith
            (OsPath.join (OsPath.abspath (cwd w) folder_path) "markdown_output"
               +:+ "/") p = false) :
  let output_dir :=
    OsPath.join (OsPath.abspath (cwd w) folder_path) "markdown_output" in
  let run := GitServer.convert_folder P folder_path w in
  files (snd run) !! p = files w !! p
  /\ (dirs (snd run) = dirs w \/ dirs (snd run) = {[output_dir]} ∪ dirs w).
Proof.
  cbv zeta.
  set (folder := OsPath.abspath (cwd w) folder_path) in *.
  set (output_dir := OsPath.join folder "markdown_output") in *.
  unfold GitServer.convert_folder. unfold isdir, listdir. unfold_run.
  cbv beta iota zeta. fold folder.
  destruct (bool_decide (folder ∈ dirs w)); cbn [negb]; cbv beta iota; [|auto].
  fold output_dir.
  assert (Hmk : (fst (makedirs output_dir w) <> Ret tt /\ snd (makedirs output_dir w) = w)
                \/ (fst (makedirs output_dir w) = Ret tt
                    /\ files (snd (makedirs output_dir w)) = files w
                    /\ (dirs (snd (makedirs output_dir w)) = dirs w
                        \/ dirs (snd (makedirs output_dir w))
                           = {[output_dir]} ∪ dirs w))).
  { unfold makedirs.
    destruct (bool_decide (is_Some (files w !! output_dir)));
      [left; split; [discriminate|reflexivity]|].
    destruct (bool_decide (output_dir ∈ dirs w)); right; world_simpl; auto. }
  destruct (makedirs output_dir w) as [[[]|e] w1]; cbn [fst snd] in Hmk;
    cbv beta iota.
  - destruct Hmk as [[Hne _]|(_ & Hfiles & Hdirs)]; [congruence|].
    destruct (folder_loop_frame P folder (listing w1 folder) (listing_lacks _ _)
                ([], []) w1) as ([processed skipped] & w2 & Hrun & Hd & Hf).
    fold output_dir in Hrun, Hf. rewrite Hrun. cbv beta iota. cbn [snd].
    rewrite (Hf p Hp), Hfiles, Hd. auto.
  - destruct Hmk as [[_ ->]|(Hr & _)]; [auto|discriminate].
Qed.

Lemma folder_conversion_writes_only_below_markdown_output_witness :
  startswith
    (OsPath.join (OsPath.abspath (cwd Demo.repo) "docs") "markdown_output" +:+ "/")
    "/srv/app/docs/readme.txt" = false
  /\ files (snd (GitServer.convert_folder Demo.platform "docs" Demo.repo))
       !! "/srv/app/docs/readme.txt"
     = Some (Demo.file "hello" 1699000000).
Proof.
  split; [reflexivity|].
  exact (proj1 (folder_conversion_writes_only_below_markdown_output Demo.platform
                  Demo.repo "docs" "/srv/app/docs/readme.txt" eq_refl)).
Defined.

(** X23 — when the folder is a directory and [markdown_output] inside
    it is a regular file, [convert_folder] does not return a message:
    [os.makedirs] raises [FileExistsError] on that path before anything
    is listed or converted, and the world is untouched. *)
Theorem folder_conversion_raises_on_blocked_output_dir
    (P : Platform) (w : World) (folder_path : string) (blocker : File)
    (Hdir : OsPath.abspath (cwd w) folder_path ∈ dirs w)
    (Hblocked : files w !! OsPath.join (OsPath.abspath (cwd w) folder_path)
                             "markdown_output" = Some blocker) :
  GitServer.convert_folder P folder_path w
  = (Raise (FileExistsError
              (OsPath.join (OsPath.abspath (cwd w) folder_path) "markdown_output")),
     w).
Proof.
  unfold GitServer.convert_folder. unfold isdir, listdir, makedirs. unfold_run.
  cbv beta iota zeta.
  rewrite bool_decide_eq_true_2 by exact Hdir. cbn [negb]. cbv beta iota.
  rewrite Hblocked.
  rewrite (bool_decide_eq_true_2 (is_Some (Some blocker))) by eauto.
  reflexivity.
Qed.

Lemma folder_conversion_raises_on_blocked_output_dir_witness :
  let w := with_files <["/srv/app/docs/markdown_output" := Demo.file "notes" 1699000400]>
             Demo.repo in
  OsPath.abspath (cwd w) "docs" ∈ dirs w
  /\ files w !! OsPath.join (OsPath.abspath (cwd w) "docs") "markdown_output"
     = Some (Demo.file "notes" 1699000400)
  /\ GitServer.convert_folder Demo.platform "docs" w
     = (Raise (FileExistsError "/srv/app/docs/markdown_output"), w).
Proof.
  cbv zeta.
  assert (Hdir : OsPath.abspath
                   (cwd (with_files
                           <["/srv/app/docs/markdown_output" :=
                               Demo.file "notes" 1699000400]> Demo.repo)) "docs"
                 ∈ dirs (with_files
                           <["/srv/app/docs/markdown_output" :=
                               Demo.file "notes" 1699000400]> Demo.repo))
    by (apply (bool_decide_unpack _); vm_compute; exact I).
  split; [exact Hdir|]. split; [reflexivity|].
  exact (folder_conversion_raises_on_blocked_output_dir Demo.platform _ "docs"
           (Demo.file "notes" 1699000400) Hdir eq_refl).
Defined.

(** ** [mcp_test.py]: the base64 endpoint beside the base64 tool *)

Section EndpointRuns.
Local Arguments String.append : simpl nomatch.
Variable P : Platform.
Variable mkstemp : World -> string -> string.

Lemma endpoint_run w content filename bytes :
  b64decode P content = Ret bytes ->
  truthy (mkstemp w (snd (OsPath.splitext filename))) = true ->
  McpTest.convert_base64_file P mkstemp content filename w
  = let tmp := mkstemp w (snd (OsPath.splitext filename)) in
    let w1 := emit (EvWrite tmp)
                (with_files <[tmp := {| data := []; ctime := clock w;
                                        readable := true |}]> w) in
    let w2 := emit (EvWrite tmp)
                (with_files <[tmp := {| data := bytes; ctime := clock w;
                                        readable := true |}]> w1) in
    let w3 := emit (EvConvert (MarkItDown true) tmp) w2 in
    (match backend_convert P (MarkItDown true) tmp bytes with
     | Ret md => Ret {| McpTest.cv_filename := filename; McpTest.cv_markdown := md;
                        McpTest.cv_size := Z.of_nat (length bytes) |}
     | Raise e =>
         Raise (McpTest.HTTPException 500
                  ("Conversion failed: " +:+ "Conversion error for " +:+ filename
                     +:+ ": " +:+ exn_str e))
     end, emit (EvRemove tmp) (with_files (delete tmp) w3)).
Proof.
  intros Hdec Ht. cbv zeta.
  unfold McpTest.convert_base64_file, McpTest.stage_tmp,
    McpTest.NamedTemporaryFile, McpTest.remove_tmp_path, McpTest.convert_file_to_md.
  run_steps. rewrite Hdec. cbv beta iota. world_simpl. rewrite lookup_insert_eq.
  cbn [data]. set (tmp := mkstemp w _) in *.
  destruct (backend_convert P (MarkItDown true) tmp bytes) as [md|e];
    tmp_steps Ht; reflexivity.
Qed.

End EndpointRuns.

(** X24 — the endpoint [convert_base64_file] and the tool
    [convert_file_from_base64] of [mcp_test.py] agree on every request:
    they leave the same world behind; when the endpoint answers, the
    tool returns the endpoint's Markdown under the heading with the file
    name, and the size reported is the number of decoded bytes; when the
    endpoint raises, it raises status 500 with the message of the
    exception the tool raises. *)
Theorem base64_endpoint_agrees_with_tool
    (P : Platform) (mkstemp : World -> string -> string) (w : World)
    (content filename : string)
    (Hname : truthy (mkstemp w (snd (OsPath.splitext filename))) = true) :
  let endpoint := McpTest.convert_base64_file P mkstemp content filename w in
  let tool := McpTest.convert_file_from_base64 P mkstemp content filename w in
  snd endpoint = snd tool
  /\ match fst endpoint with
     | Ret answer =>
         McpTest.cv_filename answer = filename
         /\ fst tool = Ret ("# Converted: " +:+ filename +:+ NL +:+ NL
                              +:+ McpTest.cv_markdown answer)
         /\ exists bytes,
              b64decode P content = Ret bytes
              /\ McpTest.cv_size answer = Z.of_nat (length bytes)
     | Raise e =>
         exists e0,
           fst tool = Raise e0
           /\ e = McpTest.HTTPException 500 ("Conversion failed: " +:+ exn_str e0)
     end.
Proof.
  cbv zeta. destruct (b64decode P content) as [bytes|e] eqn:Hdec.
  - rewrite (endpoint_run P mkstemp w content filename bytes Hdec Hname),
      (tool_run P mkstemp w content filename bytes Hdec Hname).
    cbv zeta. cbn [fst snd]. split; [reflexivity|].
    destruct (backend_convert P (MarkItDown true) _ bytes) as [md|e].
    + cbn [McpTest.cv_filename McpTest.cv_markdown McpTest.cv_size]. eauto.
    + eexists. split; reflexivity.
  - unfold McpTest.convert_file_from_base64, McpTest.convert_base64_file,
      McpTest.remove_tmp_path.
    run_steps. rewrite Hdec. cbn [fst snd]. split; [reflexivity|].
    exists e. split; reflexivity.
Qed.

Lemma base64_endpoint_agrees_with_tool_witness :
  truthy (Demo.mkstemp Demo.repo (snd (OsPath.splitext "notes.txt"))) = true
  /\ snd (McpTest.convert_base64_file Demo.platform Demo.mkstemp "aGVsbG8="
            "notes.txt" Demo.repo)
     = snd (McpTest.convert_file_from_base64 Demo.platform Demo.mkstemp "aGVsbG8="
              "notes.txt" Demo.repo)
  /\ fst (McpTest.convert_base64_file Demo.platform Demo.mkstemp "aGVsbG8="
            "notes.txt" Demo.repo)
     = Ret {| McpTest.cv_filename := "notes.txt"; McpTest.cv_markdown := "hello";
              McpTest.cv_size := 5 |}.
Proof.
  split; [reflexivity|]. split; [|vm_compute; reflexivity].
  exact (proj1 (base64_endpoint_agrees_with_tool Demo.platform Demo.mkstemp Demo.repo
                  "aGVsbG8=" "notes.txt" eq_refl)).
Defined.

(** ** [improved_mcp_server.py]: what the path tool leaves alone *)

(** X25 — [convert_file_from_path] of [improved_mcp_server.py] touches at
    most one path: however the call ends, every file other than the
    output path is as it was, the input included, and so is every
    directory. *)
Theorem path_conversion_touches_only_its_output
    (P : Platform) (w : World) (file_path p : string) (output_name : option string)
    (Hother : p <> Improved.output_path P w file_path output_name) :
  files (snd (Improved.convert_file_from_path P file_path output_name w)) !! p
  = files w !! p
  /\ dirs (snd (Improved.convert_file_from_path P file_path output_name w)) = dirs w.
Proof.
  unfold Improved.output_path in Hother.
  unfold Improved.convert_file_from_path. run_steps.
  destruct (Improved.named output_name) eqn:Hn;
    repeat (match goal with
            | |- context [Improved.validate_file_content P ?a ?b] =>
                destruct (Improved.validate_file_content P a b) as [[|] ?]
            | |- context [match backend_convert ?a ?b ?c ?d with _ => _ end] =>
                destruct (backend_convert a b c d)
            | |- context [match ?m !! ?k with _ => _ end] => destruct (m !! k)
            | |- context [if ?b then _ else _] => destruct b
            end; cbn [negb]; cbv beta iota; world_simpl);
    try (split; reflexivity);
    (split; [|reflexivity]); apply lookup_insert_ne; congruence.
Qed.

Lemma path_conversion_touches_only_its_output_witness :
  "/shared/inbox/notes.txt"
    <> Improved.output_path Demo.platform Demo.shared_inbox "/shared/inbox/notes.txt" None
  /\ files (snd (Improved.convert_file_from_path Demo.platform "/shared/inbox/notes.txt"
                   None Demo.shared_inbox)) !! "/shared/inbox/notes.txt"
     = Some (Demo.file "plain notes" 1699990500).
Proof.
  assert (H : "/shared/inbox/notes.txt"
              <> Improved.output_path Demo.platform Demo.shared_inbox
                   "/shared/inbox/notes.txt" None) by (vm_compute; discriminate).
  split; [exact H|].
  exact (eq_trans
           (proj1 (path_conversion_touches_only_its_output Demo.platform
                     Demo.shared_inbox "/shared/inbox/notes.txt"
                     "/shared/inbox/notes.txt" None H)) eq_refl).
Defined.

(** ** [improved_mcp_server.py]: which files the validator lets through *)

Section AcceptedFacts.
Local Arguments String.append : simpl nomatch.
Import Pathlib.

Lemma lower_app a b : lower (a +:+ b) = lower a +:+ lower b.
Proof.
  induction a as [|x a IH]; [reflexivity|].
  change (String x a +:+ b) with (String x (a +:+ b)). cbn [lower].
  rewrite IH. reflexivity.
Qed.

Lemma rfind_last c s r : lacks c r = true -> rfind c (s +:+ String c r) = len s.
Proof.
  intros Hr. unfold len. induction s as [|a s IH].
  - change ("" +:+ String c r) with (String c r). cbn [rfind].
    rewrite (rfind_lacks c r Hr), Ascii.eqb_refl. reflexivity.
  - change (String a s +:+ String c r) with (String a (s +:+ String c r)).
    cbn [rfind String.length]. rewrite IH.
    replace (0 <=? Z.of_nat (String.length s)) with true
      by (symmetry; apply Z.leb_le; lia). lia.
Qed.

(** The shape of each accepted extension: a dot, then letters *)
Lemma extension_shape ext :
  In ext Improved.ALLOWED_EXTENSIONS ->
  exists r, ext = String "." r /\ lacks "." r = true /\ truthy r = true.
Proof.
  intros H. repeat (destruct H as [<-|H]; [eexists; repeat split; reflexivity|]).
  destruct H.
Qed.

Lemma suffix_of_name p st r :
  name p = st +:+ String "." r -> truthy st = true -> truthy r = true ->
  lacks "." r = true -> suffix p = String "." r.
Proof.
  intros Hn Hs Hr Hl. unfold suffix. rewrite Hn, (rfind_last "." st r Hl).
  unfold len. rewrite length_app_s. cbn [String.length].
  replace ((0 <? Z.of_nat (String.length st))
           && (Z.of_nat (String.length st)
               <? Z.of_nat (String.length st + S (String.length r)) - 1)) with true.
  - unfold slice_from. rewrite Nat2Z.id.
    rewrite <- (Nat.add_0_r (String.length st)). apply drop_app_length.
  - symmetry. apply andb_true_iff. split; apply Z.ltb_lt.
    + destruct st; [discriminate|]. cbn [String.length]. lia.
    + destruct r; [discriminate|]. cbn [String.length]. lia.
Qed.

Lemma mem_In x l : mem x l = true <-> In x l.
Proof.
  unfold mem. rewrite existsb_exists. split.
  - intros (y & Hy & ->%String.eqb_eq). exact Hy.
  - intros H. exists x. split; [exact H|apply String.eqb_refl].
Qed.

Lemma accepted_shape filename :
  Improved.accepted filename = true
  <-> exists st ext,
        truthy st = true /\ In ext Improved.ALLOWED_EXTENSIONS
        /\ lower (name (Path filename)) = st +:+ ext.
Proof.
  unfold Improved.accepted. rewrite mem_In. split.
  - intros Hin. exists (lower (stem (Path filename))), (lower (suffix (Path filename))).
    split; [|split; [exact Hin|rewrite <- lower_app, <- name_stem_suffix; reflexivity]].
    rewrite truthy_lower.
    destruct (extension_shape _ Hin) as (r & Hr & _ & _).
    assert (Ht : truthy (suffix (Path filename)) = true)
      by (rewrite <- truthy_lower, Hr; reflexivity).
    rewrite suffix_truthy in Ht. apply andb_true_iff in Ht as [H1%Z.ltb_lt H2%Z.ltb_lt].
    unfold stem. rewrite (proj2 (andb_true_iff _ _)) by (split; apply Z.ltb_lt; lia).
    unfold slice_to, len in *.
    pose proof (length_take (Z.to_nat (rfind "." (name (Path filename))))
                  (name (Path filename))) as Hl.
    destruct (take _ _); [|reflexivity]. cbn [String.length] in Hl. lia.
  - intros (st & ext & Hs & Hin & Hn).
    destruct (extension_shape _ Hin) as (r & -> & Hl & Hr).
    rewrite <- name_lower in Hn. rewrite <- suffix_lower.
    rewrite (suffix_of_name _ st r Hn Hs Hr Hl). exact Hin.
Qed.

End AcceptedFacts.

(** X26 — [validate_file_content] accepts a file exactly when the last
    component of its name, in lower case, is a non-empty stem followed
    by one of the seven accepted extensions, and its size is at most
    52428800 bytes; a file of exactly that size passes. *)
Theorem validation_accepts_exactly
    (P : Platform) (filename : string) (size : Z) :
  fst (Improved.validate_file_content P filename size) = true
  <-> (exists stem ext,
         truthy stem = true /\ In ext Improved.ALLOWED_EXTENSIONS
         /\ lower (Pathlib.name (Pathlib.Path filename)) = stem +:+ ext)
      /\ size <= 52428800.
Proof.
  rewrite <- accepted_shape.
  unfold Improved.validate_file_content, Improved.accepted.
  destruct (mem _ Improved.ALLOWED_EXTENSIONS); cbn [negb].
  - destruct (Improved.MAX_FILE_SIZE <? size) eqn:E; cbn [fst].
    + apply Z.ltb_lt in E. unfold Improved.MAX_FILE_SIZE in E.
      split; [discriminate|]. intros [_ H]. lia.
    + apply Z.ltb_ge in E. unfold Improved.MAX_FILE_SIZE in E.
      split; [intros _; split; [reflexivity|lia]|reflexivity].
  - cbn [fst]. split; [discriminate|]. intros [H _]. discriminate.
Qed.
